(** * dependi: decoration builder and replace commands

    A shallow embedding of [src/vscode/src/ui/decoration.ts] and of the two
    command handlers [replaceVersion] and [updateAll], with the properties
    of the specification stated against them.

    Conventions of the embedding.
    - A JavaScript string is a [string]: a sequence of UTF-16 code units
      restricted to U+0000..U+00FF, one [ascii] per code unit.
    - [string | undefined] is [option string]; where the code compares a
      value that may be [null] with one that may be [undefined], the three
      cases are kept apart ([Js.maybe]).
    - [Map<string, string[]>] is a [gmap string (list string)].
    - Calls into the editor (an edit, a save) are recorded in a trace of
      [Call]s in the order the code issues them.
    - Functions imported from outside the two files ([checkVersion],
      semver's [validRange], the escaping done by [MarkdownString.appendText],
      the command identifier in [Configs]) are fields of the class
      [Externals].
    - The built-ins the payload of a command link goes through
      ([JSON.stringify], [encodeURI], and on the way back
      [decodeURIComponent], [JSON.parse]) are written out on these
      strings. *)

From Stdlib Require Import Ascii String NArith Bool Lia.
From Stdlib Require Import DecimalString DecimalN DecimalFacts.
From stdpp Require Import base strings list gmap option.

Local Open Scope string_scope.

(** ** JavaScript strings *)

Module Js.

(** [string | null | undefined]. *)
Inductive maybe : Type :=
| undefined : maybe
| null : maybe
| str (s : string) : maybe.

Definition of_option (o : option string) : maybe :=
  match o with Some s => str s | None => undefined end.

(** [a !== b] on values of type [string | null | undefined]. *)
Definition strict_neq (a b : maybe) : bool :=
  match a, b with
  | undefined, undefined => false
  | null, null => false
  | str s, str t => negb (String.eqb s t)
  | _, _ => true
  end.

(** [a ?? d]. *)
Definition nullish (a : maybe) (d : string) : string :=
  match a with str s => s | _ => d end.

(** [ToString] applied to a [string | undefined]. *)
Definition to_string (o : option string) : string :=
  match o with Some s => s | None => "undefined" end.

(** Truthiness of a [string | undefined]. *)
Definition truthy (o : option string) : bool :=
  match o with
  | Some s => negb (String.eqb s "")
  | None => false
  end.

(** [o == lit] (loose equality against a string literal). *)
Definition loose_eq (o : option string) (lit : string) : bool :=
  match o with Some s => String.eqb s lit | None => false end.

Fixpoint drop (n : nat) (s : string) : string :=
  match n, s with
  | S n', String _ s' => drop n' s'
  | _, _ => s
  end.

(** First occurrence of [pat] in [s]: the text before it and the text
    after it. *)
Fixpoint search (pat s : string) : option (string * string) :=
  if String.prefix pat s then Some ("", drop (String.length pat) s)
  else match s with
       | EmptyString => None
       | String c s' =>
           match search pat s' with
           | Some (b, a) => Some (String c b, a)
           | None => None
           end
       end.

(** [GetSubstitution] of ECMA-262 for a string pattern (no captures):
    in the replacement text [$$] stands for a dollar sign, [$&] for the
    matched text, [$`] for the text before the match and [$'] for the
    text after it; any other [$] is literal. *)
Fixpoint getSubstitution (matched before after templ : string) : string :=
  match templ with
  | EmptyString => ""
  | String d rest =>
      if Ascii.eqb d "$" then
        match rest with
        | String c t =>
            if Ascii.eqb c "$" then
              String "$" (getSubstitution matched before after t)
            else if Ascii.eqb c "&" then
              matched ++ getSubstitution matched before after t
            else if Ascii.eqb c "`" then
              before ++ getSubstitution matched before after t
            else if Ascii.eqb c "'" then
              after ++ getSubstitution matched before after t
            else String "$" (getSubstitution matched before after rest)
        | EmptyString => "$"
        end
      else String d (getSubstitution matched before after rest)
  end.

(** [s.replace(pat, repl)] with a string pattern: the first occurrence
    only. *)
Definition replace (pat repl s : string) : string :=
  match search pat s with
  | Some (b, a) => b ++ getSubstitution pat b a repl ++ a
  | None => s
  end.

(** [s.replace(/c/g, "")] for a single character [c]. *)
Fixpoint removeAll (c : ascii) (s : string) : string :=
  match s with
  | EmptyString => ""
  | String d s' =>
      if Ascii.eqb d c then removeAll c s' else String d (removeAll c s')
  end.

(** [s.split(c)] for a single character [c]. *)
Fixpoint split (c : ascii) (s : string) : list string :=
  match s with
  | EmptyString => [""]
  | String d s' =>
      if Ascii.eqb d c then "" :: split c s'
      else match split c s' with
           | h :: t => String d h :: t
           | [] => [String d ""]
           end
  end.

(** White space and line terminators below U+0100. *)
Definition isSpace (c : ascii) : bool :=
  let n := N_of_ascii c in
  ((9 <=? n) && (n <=? 13) || (n =? 32) || (n =? 160))%N.

Fixpoint trimStart (s : string) : string :=
  match s with
  | String c s' => if isSpace c then trimStart s' else s
  | EmptyString => ""
  end.

Fixpoint trimEnd (s : string) : string :=
  match s with
  | EmptyString => ""
  | String c s' =>
      match trimEnd s' with
      | EmptyString => if isSpace c then "" else String c ""
      | t => String c t
      end
  end.

Definition trim (s : string) : string := trimEnd (trimStart s).

(** [s.substr(1, s.length - 2)]: a non-positive length gives the empty
    string, which is what the truncated subtraction on [nat] yields. *)
Definition substr (from len : nat) (s : string) : string :=
  String.substring from len s.

(** [`${n}`] for a non-negative integer. *)
Definition decimal (n : N) : string :=
  NilEmpty.string_of_uint (N.to_uint n).

Fixpoint join (l : list string) : string :=
  match l with
  | [] => ""
  | s :: l' => s ++ join l'
  end.

(** [s.includes(c)] for a single character [c]. *)
Fixpoint includes (c : ascii) (s : string) : bool :=
  match s with
  | EmptyString => false
  | String d s' => Ascii.eqb c d || includes c s'
  end.

End Js.

(** ** Data model *)

(** [vscode.Position] and [vscode.Range], as the four numbers the code
    reads and writes. *)
Record Position : Type := mkPosition { line : N; character : N }.

Record Range : Type := mkRange { start : Position; end_ : Position }.

(** [new Range(startLine, startCharacter, endLine, endCharacter)], for
    arguments with the start not after the end, as those read from a range
    are; the constructor's swap of inverted arguments is not modelled. *)
Definition newRange (sl sc el ec : N) : Range :=
  mkRange (mkPosition sl sc) (mkPosition el ec).

(** [core/Item]: the fields [decoration] reads. *)
Module Item.
Record t : Type := mk {
  key : string;
  value : option string;
  range : Range;
  line : N;
  endOfLine : N;
  decoRange : Range
}.
End Item.

(** [commands/replacers/replace]: [ReplaceItem] and the shared [status]. *)
Module ReplaceItem.
Record t : Type := mk { value : string; range : Range }.
End ReplaceItem.

Record Status : Type := mkStatus {
  inProgress : bool;
  replaceItems : list ReplaceItem.t
}.

(** [core/Language]: the members [decoration.ts] names, and any other
    member (the [default] branch of its switches). *)
Module Language.
Inductive t : Type := Rust | Golang | JS | Python | Other.
End Language.

Inductive Placement : Type := before | after.

(** [ui/pref]: [DecorationPreferences]. *)
Record DecorationPreferences : Type := mkPreferences {
  position : Placement;
  compatibleText : string;
  incompatibleText : string;
  errorText : string;
  vulnText : string
}.

Inductive DecoType : Type := COMP | INCOMP | ERROR.

(** [vscode.MarkdownString]: the accumulated text and the trust flag. *)
Module MarkdownString.
Record t : Type := mk { value : string; isTrusted : bool }.

Definition new (s : string) : t := mk s false.

Definition appendMarkdown (m : t) (s : string) : t :=
  mk (value m ++ s) (isTrusted m).

Definition trust (m : t) : t := mk (value m) true.
End MarkdownString.

(** [DecorationInstanceRenderOptions] with its single computed key. *)
Record RenderOptions : Type := mkRenderOptions {
  attachment : Placement;
  contentText : string
}.

Record DecorationOptions : Type := mkDecoration {
  range : Range;
  hoverMessage : MarkdownString.t;
  renderOptions : RenderOptions
}.

(** Calls into the editor. *)
Inductive Call : Type :=
| EditReplace (r : Range) (text : string)   (* [edit.replace(r, text)] *)
| DocumentSave                              (* [editor.document.save()] *)
| WorkspaceSave.                            (* [workspace.save(editor.document.uri)] *)

(** How a call of [decoration] ends: it returns a value, or a [TypeError]
    escapes; either way with the editor calls issued so far. *)
Inductive Completion (A : Type) : Type :=
| Returns (calls : list Call) (a : A)
| Throws (calls : list Call).
Arguments Returns {A} calls a.
Arguments Throws {A} calls.

#[export] Instance Completion_ret : MRet Completion :=
  fun A a => Returns [] a.

#[export] Instance Completion_bind : MBind Completion :=
  fun A B k c =>
    match c with
    | Returns calls a =>
        match k a with
        | Returns calls' b => Returns (calls ++ calls') b
        | Throws calls' => Throws (calls ++ calls')
        end
    | Throws calls => Throws calls
    end.

Definition emit (calls : list Call) : Completion unit := Returns calls tt.

(** What [decoration.ts] imports from outside the two files. *)
Class Externals : Type := {
  (** [semver/semverUtils.checkVersion(version, versions)]: the pair
      [satisfies] (by truthiness) and [maxSatisfying]. *)
  checkVersion : option string -> list string -> bool * Js.maybe;
  (** [semver.validRange(version)], by truthiness of its result. *)
  validRange : option string -> bool;
  (** The escaping [MarkdownString.appendText] applies to its argument. *)
  escapeText : string -> string;
  (** [Configs.REPLACE_VERSIONS]. *)
  REPLACE_VERSIONS : string
}.

(** Characters that are awkward inside a literal. *)
Definition dquote : ascii := "034"%char.
Definition backslash : ascii := "092"%char.
Definition nl : string := String "010"%char EmptyString.
Definition tab : string := String "009"%char EmptyString.

(** ** [JSON.stringify] and [encodeURI] *)

Module Json.

(** JSON values; a number is a non-negative integer, which is all a
    [Position] holds, and is written in decimal. *)
#[warnings="-register-all"]
Inductive value : Type :=
| Null : value
| Bool (b : bool) : value
| Number (n : N) : value
| Str (s : string) : value
| Array (l : list value) : value
| Object (members : list (string * value)) : value.

Definition hexLower (n : N) : ascii :=
  if (n <? 10)%N then ascii_of_N (48 + n) else ascii_of_N (87 + n).

(** One code unit inside [QuoteJSONString]. *)
Definition escapeUnit (c : ascii) : string :=
  let n := N_of_ascii c in
  if (n =? 8)%N then String backslash "b"
  else if (n =? 9)%N then String backslash "t"
  else if (n =? 10)%N then String backslash "n"
  else if (n =? 12)%N then String backslash "f"
  else if (n =? 13)%N then String backslash "r"
  else if (n =? 34)%N then String backslash (String dquote EmptyString)
  else if (n =? 92)%N then String backslash (String backslash EmptyString)
  else if (n <? 32)%N then
    String backslash
      (String "u" (String "0" (String "0"
         (String (hexLower (n / 16)) (String (hexLower (n mod 16)) EmptyString)))))
  else String c EmptyString.

Fixpoint escapeUnits (s : string) : string :=
  match s with
  | EmptyString => EmptyString
  | String c s' => escapeUnit c ++ escapeUnits s'
  end.

Definition quote (s : string) : string :=
  String dquote (escapeUnits s ++ String dquote EmptyString).

Fixpoint stringify (v : value) : string :=
  match v with
  | Null => "null"
  | Bool true => "true"
  | Bool false => "false"
  | Number n => Js.decimal n
  | Str s => quote s
  | Array l =>
      "[" ++
      (fix elements (l : list value) : string :=
         match l with
         | [] => EmptyString
         | x :: l' =>
             match l' with
             | [] => stringify x
             | _ :: _ => stringify x ++ "," ++ elements l'
             end
         end) l ++ "]"
  | Object members =>
      "{" ++
      (fix fields (m : list (string * value)) : string :=
         match m with
         | [] => EmptyString
         | (k, x) :: m' =>
             match m' with
             | [] => quote k ++ ":" ++ stringify x
             | _ :: _ => quote k ++ ":" ++ stringify x ++ "," ++ fields m'
             end
         end) members ++ "}"
  end.

(** [JSON.parse].  [None] stands for a [SyntaxError], and also for the
    texts whose value the embedding does not represent: a number with a
    sign, a fraction or an exponent, and an escape above U+00FF. *)

Definition isWs (c : ascii) : bool :=
  let n := N_of_ascii c in
  ((n =? 9) || (n =? 10) || (n =? 13) || (n =? 32))%N.

Fixpoint skipWs (s : string) : string :=
  match s with
  | String c s' => if isWs c then skipWs s' else s
  | EmptyString => EmptyString
  end.

Definition isDigit (c : ascii) : bool :=
  let n := N_of_ascii c in ((48 <=? n) && (n <=? 57))%N.

Definition hexVal (c : ascii) : option N :=
  let n := N_of_ascii c in
  if ((48 <=? n) && (n <=? 57))%N then Some (n - 48)%N
  else if ((65 <=? n) && (n <=? 70))%N then Some (n - 55)%N
  else if ((97 <=? n) && (n <=? 102))%N then Some (n - 87)%N
  else None.

Definition consUnit (c : ascii) (r : option (string * string))
    : option (string * string) :=
  match r with
  | Some (t, rest) => Some (String c t, rest)
  | None => None
  end.

(** The characters of a string literal after its opening quote, up to
    and including the closing quote. *)
Fixpoint parseChars (s : string) : option (string * string) :=
  match s with
  | EmptyString => None
  | String c rest =>
      if Ascii.eqb c dquote then Some (EmptyString, rest)
      else if Ascii.eqb c backslash then
        match rest with
        | EmptyString => None
        | String e rest1 =>
            if Ascii.eqb e dquote then consUnit dquote (parseChars rest1)
            else if Ascii.eqb e backslash then consUnit backslash (parseChars rest1)
            else if Ascii.eqb e "/" then consUnit "/" (parseChars rest1)
            else if Ascii.eqb e "b" then consUnit "008" (parseChars rest1)
            else if Ascii.eqb e "f" then consUnit "012" (parseChars rest1)
            else if Ascii.eqb e "n" then consUnit "010" (parseChars rest1)
            else if Ascii.eqb e "r" then consUnit "013" (parseChars rest1)
            else if Ascii.eqb e "t" then consUnit "009" (parseChars rest1)
            else if Ascii.eqb e "u" then
              match rest1 with
              | String h1 (String h2 (String h3 (String h4 rest2))) =>
                  match hexVal h1, hexVal h2, hexVal h3, hexVal h4 with
                  | Some a, Some b, Some c', Some d =>
                      let code := (4096 * a + 256 * b + 16 * c' + d)%N in
                      if (code <? 256)%N
                      then consUnit (ascii_of_N code) (parseChars rest2)
                      else None
                  | _, _, _, _ => None
                  end
              | _ => None
              end
            else None
        end
      else if (N_of_ascii c <? 32)%N then None
      else consUnit c (parseChars rest)
  end.

(** The longest prefix of digits, and what follows it. *)
Fixpoint takeDigits (s : string) : string * string :=
  match s with
  | String c s' =>
      if isDigit c then
        let '(ds, rest) := takeDigits s' in (String c ds, rest)
      else (EmptyString, s)
  | EmptyString => (EmptyString, EmptyString)
  end.

Definition startsFraction (s : string) : bool :=
  match s with
  | String c _ => Ascii.eqb c "." || Ascii.eqb c "e" || Ascii.eqb c "E"
  | EmptyString => false
  end.

Definition leadingZero (ds : string) : bool :=
  match ds with
  | String c (String _ _) => Ascii.eqb c "0"
  | _ => false
  end.

Definition parseNumber (s : string) : option (value * string) :=
  let '(ds, rest) := takeDigits s in
  if leadingZero ds || startsFraction rest then None
  else match ds with
       | EmptyString => None
       | String _ _ =>
           match NilEmpty.uint_of_string ds with
           | Some d => Some (Number (N.of_uint d), rest)
           | None => None
           end
       end.

Fixpoint parseValue (fuel : nat) (s : string) {struct fuel}
    : option (value * string) :=
  match fuel with
  | O => None
  | S fuel =>
      match skipWs s with
      | EmptyString => None
      | String c rest =>
          if Ascii.eqb c dquote then
            match parseChars rest with
            | Some (t, rest1) => Some (Str t, rest1)
            | None => None
            end
          else if Ascii.eqb c "{" then
            match skipWs rest with
            | EmptyString => None
            | String d rest1 =>
                if Ascii.eqb d "}" then Some (Object [], rest1)
                else match parseMembers fuel rest with
                     | Some (m, rest2) => Some (Object m, rest2)
                     | None => None
                     end
            end
          else if Ascii.eqb c "[" then
            match skipWs rest with
            | EmptyString => None
            | String d rest1 =>
                if Ascii.eqb d "]" then Some (Array [], rest1)
                else match parseElements fuel rest with
                     | Some (l, rest2) => Some (Array l, rest2)
                     | None => None
                     end
            end
          else if isDigit c then parseNumber (String c rest)
          else if String.prefix "true" (String c rest)
               then Some (Bool true, Js.drop 4 (String c rest))
          else if String.prefix "false" (String c rest)
               then Some (Bool false, Js.drop 5 (String c rest))
          else if String.prefix "null" (String c rest)
               then Some (Null, Js.drop 4 (String c rest))
          else None
      end
  end
with parseMembers (fuel : nat) (s : string) {struct fuel}
    : option (list (string * value) * string) :=
  match fuel with
  | O => None
  | S fuel =>
      match skipWs s with
      | EmptyString => None
      | String q rest =>
          if Ascii.eqb q dquote then
            match parseChars rest with
            | None => None
            | Some (k, rest1) =>
                match skipWs rest1 with
                | EmptyString => None
                | String colon rest2 =>
                    if Ascii.eqb colon ":" then
                      match parseValue fuel rest2 with
                      | None => None
                      | Some (v, rest3) =>
                          match skipWs rest3 with
                          | EmptyString => None
                          | String d rest4 =>
                              if Ascii.eqb d "," then
                                match parseMembers fuel rest4 with
                                | Some (m, rest5) => Some ((k, v) :: m, rest5)
                                | None => None
                                end
                              else if Ascii.eqb d "}" then Some ([(k, v)], rest4)
                              else None
                          end
                      end
                    else None
                end
            end
          else None
      end
  end
with parseElements (fuel : nat) (s : string) {struct fuel}
    : option (list value * string) :=
  match fuel with
  | O => None
  | S fuel =>
      match parseValue fuel s with
      | None => None
      | Some (v, rest1) =>
          match skipWs rest1 with
          | EmptyString => None
          | String d rest2 =>
              if Ascii.eqb d "," then
                match parseElements fuel rest2 with
                | Some (l, rest3) => Some (v :: l, rest3)
                | None => None
                end
              else if Ascii.eqb d "]" then Some ([v], rest2)
              else None
          end
      end
  end.

(** Every call consumes a character, so the length of the text bounds
    the depth of the calls. *)
Definition parse (s : string) : option value :=
  match parseValue (S (String.length s)) s with
  | Some (v, rest) =>
      match skipWs rest with
      | EmptyString => Some v
      | String _ _ => None
      end
  | None => None
  end.

(** [o[k]] on a parsed object: of two members with one name the later
    one is kept. *)
Fixpoint get (k : string) (members : list (string * value)) : option value :=
  match members with
  | [] => None
  | (k', v) :: members' =>
      match get k members' with
      | Some v' => Some v'
      | None => if String.eqb k k' then Some v else None
      end
  end.

Definition field (k : string) (v : value) : option value :=
  match v with
  | Object members => get k members
  | _ => None
  end.

End Json.

Module Uri.

Definition isAlnum (c : ascii) : bool :=
  let n := N_of_ascii c in
  ((48 <=? n) && (n <=? 57) || (65 <=? n) && (n <=? 90)
   || (97 <=? n) && (n <=? 122))%N.

(** The code units [encodeURI] leaves as they are: letters, digits, the
    marks and the reserved characters with [#]. *)
Definition isUnescaped (c : ascii) : bool :=
  isAlnum c || Js.includes c "-_.!~*'();/?:@&=+$,#".

Definition hexUpper (n : N) : ascii :=
  if (n <? 10)%N then ascii_of_N (48 + n) else ascii_of_N (55 + n).

Definition percent (byte : N) : string :=
  String "%" (String (hexUpper (byte / 16)) (String (hexUpper (byte mod 16)) EmptyString)).

(** A code unit below U+0080 is one UTF-8 byte, one from U+0080 to U+00FF
    is two. *)
Definition encodeUnit (c : ascii) : string :=
  let n := N_of_ascii c in
  if isUnescaped c then String c EmptyString
  else if (n <? 128)%N then percent n
  else percent (192 + n / 64) ++ percent (128 + n mod 64).

Fixpoint encodeURI (s : string) : string :=
  match s with
  | EmptyString => EmptyString
  | String c s' => encodeUnit c ++ encodeURI s'
  end.

(** [decodeURIComponent].  [None] stands for a [URIError], and also for
    an escape sequence that decodes to a code point above U+00FF, which
    the embedding does not represent. *)
Definition escapedByte (h1 h2 : ascii) : option N :=
  match Json.hexVal h1, Json.hexVal h2 with
  | Some a, Some b => Some (16 * a + b)%N
  | _, _ => None
  end.

Definition consUnit (c : ascii) (r : option string) : option string :=
  match r with
  | Some t => Some (String c t)
  | None => None
  end.

Fixpoint decodeURIComponent (s : string) : option string :=
  match s with
  | EmptyString => Some EmptyString
  | String c rest =>
      if Ascii.eqb c "%" then
        match rest with
        | String h1 (String h2 rest1) =>
            match escapedByte h1 h2 with
            | None => None
            | Some byte =>
                if (byte <? 128)%N then
                  consUnit (ascii_of_N byte) (decodeURIComponent rest1)
                else if ((194 <=? byte) && (byte <=? 195))%N then
                  match rest1 with
                  | String p (String k1 (String k2 rest2)) =>
                      if Ascii.eqb p "%" then
                        match escapedByte k1 k2 with
                        | None => None
                        | Some cont =>
                            if ((128 <=? cont) && (cont <=? 191))%N then
                              consUnit
                                (ascii_of_N ((byte - 192) * 64 + (cont - 128)))
                                (decodeURIComponent rest2)
                            else None
                        end
                      else None
                  | _ => None
                  end
                else None
            end
        | _ => None
        end
      else consUnit c (decodeURIComponent rest)
  end.

End Uri.

(** ** [ui/decoration.ts] *)

Section Decoration.

Context `{Externals}.

(** [MarkdownString.appendText]. *)
Definition appendText (m : MarkdownString.t) (s : string) : MarkdownString.t :=
  MarkdownString.appendMarkdown m (escapeText s).

(** [vuln?.get(version)]. *)
Definition vulnGet (vuln : option (gmap string (list string)))
    (version : option string) : option (list string) :=
  match vuln, version with
  | Some m, Some k => m !! k
  | _, _ => None
  end.

(** The normalisation of [item.value] on the first line of [decoration]. *)
Definition normalize (value : option string) : option string :=
  match value with
  | Some v => Some (Js.replace "," "" v)
  | None => None
  end.

Definition formatError (error : string) : MarkdownString.t :=
  let error_parts := Js.split "010" error in
  let markdown := MarkdownString.new "#### Errors " in
  let markdown := MarkdownString.appendMarkdown markdown nl in
  fold_left
    (fun markdown part =>
       let markdown := MarkdownString.appendMarkdown markdown "* " in
       let markdown := appendText markdown (Js.trim part) in
       MarkdownString.appendMarkdown markdown nl)
    (filter (fun s => s <> EmptyString) error_parts)
    markdown.

Definition getContentText (decorationPreferences : DecorationPreferences)
    (type : DecoType) : string :=
  let contentText := compatibleText decorationPreferences in
  let contentText :=
    match type with
    | INCOMP => incompatibleText decorationPreferences
    | _ => contentText
    end in
  let contentText :=
    match type with
    | ERROR => errorText decorationPreferences
    | _ => contentText
    end in
  contentText.

Definition getLinks (lang : Language.t) (key : string) : string :=
  let cleanKey := Js.removeAll dquote key in
  match lang with
  | Language.Rust =>
      " _( [View Crate](https://crates.io/crates/" ++ cleanKey
      ++ ") | [Check Reviews](https://web.crev.dev/rust-reviews/crate/"
      ++ cleanKey ++ ") )_"
  | Language.Golang =>
      " _( [View Module](https://pkg.go.dev/" ++ cleanKey
      ++ ") | [Check Docs](https://pkg.go.dev/" ++ cleanKey
      ++ "#section-documentation) )_"
  | Language.JS =>
      " _( [View Package](https://npmjs.com/package/" ++ cleanKey ++ ") )_"
  | Language.Python =>
      " _( [View Package](https://pypi.org/project/" ++ cleanKey ++ ") )_"
  | Language.Other => EmptyString
  end.

Definition getDocsLink (lang : Language.t) (key version : string) : string :=
  match lang with
  | Language.Rust =>
      "[(docs)](https://docs.rs/crate/" ++ key ++ "/" ++ version ++ ")"
  | Language.Golang =>
      "[(docs)](https://pkg.go.dev/" ++ key ++ "@" ++ version
      ++ "#section-documentation)"
  | Language.JS =>
      "[(docs)](https://npmjs.com/package/" ++ key ++ "/v/" ++ version ++ ")"
  | Language.Python =>
      "[(docs)](https://pypi.org/project/" ++ key ++ "/" ++ version ++ ")"
  | Language.Other => EmptyString
  end.

Definition appendVulnerabilities (hoverMessage : MarkdownString.t)
    (vuln : option (gmap string (list string))) (version : option string)
    : MarkdownString.t :=
  match vulnGet vuln version with
  | Some ((_ :: _) as v) =>
      let hoverMessage :=
        MarkdownString.appendMarkdown hoverMessage "#### Vulnerabilities (Current)" in
      let vulnTexts :=
        map (fun v => " - [" ++ v ++ "](https://osv.dev/vulnerability/" ++ v ++ ") " ++ nl) v in
      MarkdownString.appendMarkdown hoverMessage (nl ++ Js.join vulnTexts)
  | _ => hoverMessage
  end.

(** The [replaceData] literal of [appendVersions]. *)
Definition replaceData (item : Item.t) (version : string) : ReplaceItem.t :=
  ReplaceItem.mk version
    (mkRange
       (mkPosition (line (start (Item.range item))) (character (start (Item.range item))))
       (mkPosition (line (end_ (Item.range item))) (character (end_ (Item.range item))))).

(** A [ReplaceItem] as the object [JSON.stringify] walks, its properties
    in creation order. *)
Definition positionJson (p : Position) : Json.value :=
  Json.Object [("line", Json.Number (line p)); ("character", Json.Number (character p))].

Definition replaceItemJson (r : ReplaceItem.t) : Json.value :=
  Json.Object
    [("value", Json.Str (ReplaceItem.value r));
     ("range", Json.Object
        [("start", positionJson (start (ReplaceItem.range r)));
         ("end", positionJson (end_ (ReplaceItem.range r)))])].

(** [encodeURI(JSON.stringify(replaceData))]. *)
Definition encodedPayload (item : Item.t) (version : string) : string :=
  Uri.encodeURI (Json.stringify (replaceItemJson (replaceData item version))).

(** The [vulnText] of one entry of [appendVersions]. *)
Definition entryVulnText (decorationPreferences : DecorationPreferences)
    (vuln : option (gmap string (list string))) (version : string) : string :=
  match vulnGet vuln (Some version) with
  | Some ((_ :: _) as v) =>
      Js.replace "${count}" (Js.decimal (N.of_nat (length v)))
        (vulnText decorationPreferences)
  | _ => EmptyString
  end.

(** The body of the loop of [appendVersions] up to the string [command]. *)
Definition versionCommand (item : Item.t) (maxSatisfying : string)
    (vuln : option (gmap string (list string)))
    (decorationPreferences : DecorationPreferences) (lang : Language.t)
    (i : nat) (version : string) : string :=
  let isCurrent := String.eqb version maxSatisfying in
  let encoded := encodedPayload item version in
  let docs :=
    if (i =? 0)%nat || isCurrent then getDocsLink lang (Item.key item) version
    else EmptyString in
  let vulnText := entryVulnText decorationPreferences vuln version in
  (if isCurrent then "**" else EmptyString)
  ++ "[" ++ version ++ "](command:" ++ REPLACE_VERSIONS ++ "?" ++ encoded ++ ")"
  ++ docs ++ (if isCurrent then "**" else EmptyString) ++ "  " ++ vulnText.

(** The loop of [appendVersions], from index [i] on. *)
Fixpoint appendVersionsFrom (i : nat) (hoverMessage : MarkdownString.t)
    (versions : list string) (item : Item.t) (maxSatisfying : string)
    (vuln : option (gmap string (list string)))
    (decorationPreferences : DecorationPreferences) (lang : Language.t)
    : MarkdownString.t :=
  match versions with
  | [] => hoverMessage
  | version :: rest =>
      let command :=
        versionCommand item maxSatisfying vuln decorationPreferences lang i version in
      let hoverMessage := MarkdownString.appendMarkdown hoverMessage (nl ++ " * ") in
      let hoverMessage := MarkdownString.appendMarkdown hoverMessage command in
      appendVersionsFrom (S i) hoverMessage rest item maxSatisfying vuln
        decorationPreferences lang
  end.

Definition appendVersions := appendVersionsFrom 0.

(** The block guarded by [version == "?"]: the edit callback reads
    [info.value.substr], which throws when [versions] is empty. *)
Definition autoFill (item : Item.t) (versions : list string)
    (version : option string) : Completion unit :=
  if Js.loose_eq version "?" then
    match versions !! 0%nat with
    | Some value =>
        emit [EditReplace (Item.range item)
                (Js.substr 1 (String.length value - 2) value);
              DocumentSave]
    | None => Throws []
    end
  else mret tt.

Definition decoration (item : Item.t) (versions : list string)
    (decorationPreferences : DecorationPreferences) (lang : Language.t)
    (vuln : option (gmap string (list string))) (error : option string)
    : Completion (DecorationOptions * DecoType) :=
  let version := normalize (Item.value item) in
  let '(satisfies, maxSatisfying) := checkVersion version versions in
  let hoverMessage := MarkdownString.new EmptyString in
  let position := position decorationPreferences in
  let renderOptions := mkRenderOptions position EmptyString in
  let type := COMP in
  '(hoverMessage, renderOptions, type) ←
    match error with
    | Some ((String _ _) as error) =>
        mret (formatError error, renderOptions, ERROR)
    | _ =>
        let hoverMessage := appendVulnerabilities hoverMessage vuln version in
        let hoverMessage := MarkdownString.appendMarkdown hoverMessage "#### Versions" in
        let hoverMessage :=
          MarkdownString.appendMarkdown hoverMessage (getLinks lang (Item.key item)) in
        let hoverMessage := MarkdownString.trust hoverMessage in
        let hoverMessage :=
          appendVersions hoverMessage versions item (Js.nullish maxSatisfying EmptyString)
            vuln decorationPreferences lang in
        _ ← autoFill item versions version;
        let type :=
          if negb (validRange version) then ERROR
          else if Js.strict_neq (Js.of_option (versions !! 0%nat)) maxSatisfying
               then (if satisfies then COMP else INCOMP)
               else type in
        let template := getContentText decorationPreferences type in
        let renderOptions :=
          mkRenderOptions position
            (Js.replace "${version}" (Js.to_string (versions !! 0%nat)) template) in
        let renderOptions :=
          match vulnGet vuln version with
          | Some ((_ :: _) as vulnerabilities) =>
              let vulnText :=
                Js.replace "${count}" (Js.decimal (N.of_nat (length vulnerabilities)))
                  (vulnText decorationPreferences) in
              mkRenderOptions position (contentText renderOptions ++ tab ++ vulnText)
          | _ => renderOptions
          end in
        mret (hoverMessage, renderOptions, type)
    end;
  let deco :=
    mkDecoration
      (match position with
       | after => Item.decoRange item
       | before => newRange (Item.line item) 0 (Item.line item) (Item.endOfLine item)
       end)
      hoverMessage renderOptions in
  mret (deco, type).

End Decoration.

(** ** The command handlers

    Both handlers are registered with [registerTextEditorCommand], which
    passes the active editor: [editor] is an object and the test [editor &&]
    is true.  A handler takes the shared [status] and returns it with the
    editor calls it issued. *)

(** [new Range(...)] from the four numbers of a [ReplaceItem]. *)
Definition rangeOf (info : ReplaceItem.t) : Range :=
  newRange
    (line (start (ReplaceItem.range info)))
    (character (start (ReplaceItem.range info)))
    (line (end_ (ReplaceItem.range info)))
    (character (end_ (ReplaceItem.range info))).

(** [replaceVersion]; [info] is [None] when the command is run without an
    argument. *)
Definition replaceVersion (status : Status) (info : option ReplaceItem.t)
    : Status * list Call :=
  let '(status, calls) :=
    match info with
    | Some info =>
        if negb (inProgress status) then
          let status := mkStatus true (replaceItems status) in
          let range := rangeOf info in
          let calls := [EditReplace range (ReplaceItem.value info)] in
          let status := mkStatus false (replaceItems status) in
          (status, calls)
        else (status, [])
    | None => (status, [])
    end in
  (status, (calls ++ [WorkspaceSave])%list).

(** The loop of [updateAll]: the iterations [i = n - 1] down to [i = 0]. *)
Fixpoint replaceDownFrom (items : list ReplaceItem.t) (n : nat) : list Call :=
  match n with
  | O => []
  | S i =>
      match items !! i with
      | Some rItem =>
          EditReplace (rangeOf rItem) (ReplaceItem.value rItem)
          :: replaceDownFrom items i
      | None => replaceDownFrom items i
      end
  end.

(** The argument the command receives from a link of the hover document:
    the query of the link, URI-decoded and parsed as JSON, read through
    the properties the handler reads. *)
Definition positionOfJson (v : Json.value) : option Position :=
  match Json.field "line" v, Json.field "character" v with
  | Some (Json.Number l), Some (Json.Number c) => Some (mkPosition l c)
  | _, _ => None
  end.

Definition replaceItemOfJson (v : Json.value) : option ReplaceItem.t :=
  match Json.field "value" v, Json.field "range" v with
  | Some (Json.Str value), Some range =>
      match Json.field "start" range, Json.field "end" range with
      | Some s, Some e =>
          match positionOfJson s, positionOfJson e with
          | Some s, Some e => Some (ReplaceItem.mk value (mkRange s e))
          | _, _ => None
          end
      | _, _ => None
      end
  | _, _ => None
  end.

Definition decodePayload (encoded : string) : option ReplaceItem.t :=
  match Uri.decodeURIComponent encoded with
  | Some text =>
      match Json.parse text with
      | Some v => replaceItemOfJson v
      | None => None
      end
  | None => None
  end.

Definition updateAll (status : Status) : Status * list Call :=
  if negb (inProgress status) && (0 <? length (replaceItems status))%nat then
    let items := replaceItems status in
    let calls := replaceDownFrom items (length items) in
    (mkStatus false items, (calls ++ [WorkspaceSave])%list)
  else (status, []).

(** ** Observations on a call of [decoration] *)

Definition returned {A} (c : Completion A) : option A :=
  match c with
  | Returns _ a => Some a
  | Throws _ => None
  end.

Definition callsOf {A} (c : Completion A) : list Call :=
  match c with
  | Returns calls _ => calls
  | Throws calls => calls
  end.

(** The second component of the result. *)
Definition classification (c : Completion (DecorationOptions * DecoType))
    : option DecoType :=
  match returned c with
  | Some (_, type) => Some type
  | None => None
  end.

(** [renderOptions[position].contentText] of the result. *)
Definition inlineText (c : Completion (DecorationOptions * DecoType))
    : option string :=
  match returned c with
  | Some (deco, _) => Some (contentText (renderOptions deco))
  | None => None
  end.

(** The text of [hoverMessage] of the result. *)
Definition hoverText (c : Completion (DecorationOptions * DecoType))
    : option string :=
  match returned c with
  | Some (deco, _) => Some (MarkdownString.value (hoverMessage deco))
  | None => None
  end.

(** The [range] of the result, as the last statement of [decoration]
    chooses it. *)
Definition placed (item : Item.t) (prefs : DecorationPreferences) : Range :=
  match position prefs with
  | after => Item.decoRange item
  | before => newRange (Item.line item) 0 (Item.line item) (Item.endOfLine item)
  end.

(** One bullet of the error document: the segment trimmed and escaped. *)
Definition errorBullet `{Externals} (part : string) : string :=
  "* " ++ escapeText (Js.trim part) ++ nl.

(** ** The words of the specification *)

(** The decision sequence of the specification, section 4.1, steps 3 to 5:
    [valid] says that the declared value parses as a range, [differs] that
    [versions[0] != maxSatisfying]. *)
Inductive Decision (valid differs satisfies : bool) : DecoType -> Prop :=
| decide_error :
    valid = false -> Decision valid differs satisfies ERROR
| decide_compatible :
    valid = true -> differs = true -> satisfies = true ->
    Decision valid differs satisfies COMP
| decide_incompatible :
    valid = true -> differs = true -> satisfies = false ->
    Decision valid differs satisfies INCOMP
| decide_latest :
    valid = true -> differs = false -> Decision valid differs satisfies COMP.

(** "Stripping any trailing comma, and only a trailing comma". *)
Fixpoint stripTrailingComma (s : string) : string :=
  match s with
  | EmptyString => EmptyString
  | String c EmptyString => if Ascii.eqb c "," then EmptyString else s
  | String c s' => String c (stripTrailingComma s')
  end.

(** Applying a [ReplaceInstruction]: the range it names is overwritten
    with its value. *)
Definition applied (instruction : ReplaceItem.t) : Call :=
  EditReplace (ReplaceItem.range instruction) (ReplaceItem.value instruction).

(** The characters that end a number inside an object. *)
Definition delimiter (c : ascii) : Prop := c = ","%char \/ c = "}"%char.

(** The text [JSON.stringify] gives for a position, followed by [rest]. *)
Definition positionText (p : Position) (rest : string) : string :=
  String "{"
    (Json.quote "line" ++ String ":"
       (Js.decimal (line p) ++ String ","
          (Json.quote "character" ++ String ":"
             (Js.decimal (character p) ++ String "}" rest)))).

(** The text [JSON.stringify] gives for a [ReplaceItem], followed by
    [rest]. *)
Definition replaceItemText (r : ReplaceItem.t) (rest : string) : string :=
  String "{"
    (Json.quote "value" ++ String ":"
       (Json.quote (ReplaceItem.value r) ++ String ","
          (Json.quote "range" ++ String ":"
             (String "{"
                (Json.quote "start" ++ String ":"
                   (positionText (start (ReplaceItem.range r))
                      (String ","
                         (Json.quote "end" ++ String ":"
                            (positionText (end_ (ReplaceItem.range r))
                               (String "}" (String "}" rest))))))))))).

(** A bullet of the hover document is bold when it opens with [**]. *)
Definition isBold (bullet : string) : bool := String.prefix "**" bullet.

(** ** The scenarios of the specification

    The answers of the external functions are tabulated on the strings the
    scenarios use: semver accepts [1.2.3], [1.5.0], [^1.0.0] and [^3.0.0]
    as ranges and rejects [?]; against the versions [2.0.0], [1.5.0],
    [1.0.0] the range [^1.0.0] is satisfied with [1.5.0] the highest
    match, [1.5.0] likewise, and [^3.0.0] has no match. *)
Module Scenario.

(** A backslash before each character of Markdown syntax. *)
Fixpoint escape (s : string) : string :=
  match s with
  | EmptyString => EmptyString
  | String c s' =>
      if Js.includes c "\`*_{}[]()#+-!~"
      then String backslash (String c (escape s'))
      else String c (escape s')
  end.

Definition tabulated : Externals := {|
  checkVersion := fun version versions =>
    match version with
    | Some v =>
        if String.eqb v "^1.0.0" || String.eqb v "1.5.0"
        then (true, Js.str "1.5.0")
        else (false, Js.null)
    | None => (false, Js.null)
    end;
  validRange := fun version =>
    match version with
    | Some v =>
        existsb (String.eqb v) ["1.2.3"; "1.5.0"; "^1.0.0"; "^3.0.0"]
    | None => false
    end;
  escapeText := escape;
  REPLACE_VERSIONS := "dependi.replaceVersion"
|}.

Definition versions : list string := ["2.0.0"; "1.5.0"; "1.0.0"].

Definition preferences : DecorationPreferences :=
  mkPreferences after "latest ${version}" "outdated ${version}"
    "invalid ${version}" "${count} advisories".

Definition declared (value : string) : Item.t :=
  Item.mk "serde" (Some value) (newRange 7 8 7 15) 7 15 (newRange 7 0 7 15).

Definition advisories : option (gmap string (list string)) :=
  Some {[ "1.5.0" := ["OSV-1"; "OSV-2"] ]}.

Definition A : ReplaceItem.t := ReplaceItem.mk "1.0.1" (newRange 5 5 5 10).
Definition B : ReplaceItem.t := ReplaceItem.mk "2.3.0" (newRange 20 20 20 25).

End Scenario.

(** ** Further observations *)

(** [hoverMessage.isTrusted] of the result. *)
Definition hoverTrusted (c : Completion (DecorationOptions * DecoType))
    : option bool :=
  match returned c with
  | Some (deco, _) => Some (MarkdownString.isTrusted (hoverMessage deco))
  | None => None
  end.

(** The [range] and the computed key of [renderOptions] of the result. *)
Definition anchor (c : Completion (DecorationOptions * DecoType))
    : option (Range * Placement) :=
  match returned c with
  | Some (deco, _) => Some (range deco, attachment (renderOptions deco))
  | None => None
  end.

(** Every code unit of a text passes a test. *)
Fixpoint every (p : ascii -> bool) (s : string) : bool :=
  match s with
  | EmptyString => true
  | String c s' => p c && every p s'
  end.

(** The code units [encodeURI] can produce: those it leaves as they are,
    and the percent sign of an escape. *)
Definition linkSafe (c : ascii) : bool :=
  Uri.isUnescaped c || Ascii.eqb c "%".

(** The bullets of the error document for one text. *)
Definition errorBullets `{Externals} (error : string) : string :=
  Js.join (errorBullet <$>
             filter (fun s => s <> EmptyString) (Js.split "010" error)).

(** * Properties *)

#[local] Arguments String.append !s1 s2 : simpl nomatch.

(** ** Strings *)

Lemma append_assoc (a b c : string) : (a ++ b) ++ c = a ++ (b ++ c).
Proof.
  induction a as [|x a IH]; simpl; [reflexivity | rewrite IH; reflexivity].
Qed.

Lemma append_empty_r (a : string) : a ++ EmptyString = a.
Proof.
  induction a as [|x a IH]; simpl; [reflexivity | rewrite IH; reflexivity].
Qed.

Lemma prefix_empty (s : string) : String.prefix EmptyString s = true.
Proof. destruct s; reflexivity. Qed.

(** A text without comma has no first comma. *)
Lemma search_comma_none (s : string) :
  Js.includes "," s = false -> Js.search "," s = None.
Proof.
  induction s as [|c s IH]; [reflexivity|].
  cbn [Js.includes]. intros [Hc Hs]%orb_false_elim.
  cbn [Js.search String.prefix].
  destruct (Ascii.ascii_dec "," c) as [<-|Hne]; [discriminate|].
  rewrite (IH Hs). reflexivity.
Qed.

(** The first comma of a text splits it. *)
Lemma search_comma_first (a b : string) :
  Js.includes "," a = false ->
  Js.search "," (a ++ String "," b) = Some (a, b).
Proof.
  induction a as [|c a IH].
  { intros _. cbn. rewrite prefix_empty. reflexivity. }
  cbn [Js.includes]. intros [Hc Hs]%orb_false_elim.
  cbn [String.append Js.search String.prefix].
  destruct (Ascii.ascii_dec "," c) as [<-|Hne]; [discriminate|].
  rewrite (IH Hs). reflexivity.
Qed.

(** A replacement text without dollar sign is inserted as it is. *)
Lemma getSubstitution_plain (matched before after repl : string) :
  Js.includes "$" repl = false ->
  Js.getSubstitution matched before after repl = repl.
Proof.
  induction repl as [|d rest IH]; [reflexivity|].
  cbn [Js.includes Js.getSubstitution]. intros [Hd Hrest]%orb_false_elim.
  rewrite Ascii.eqb_sym in Hd. rewrite Hd, (IH Hrest). reflexivity.
Qed.

Lemma replace_plain (pat repl s before after : string) :
  Js.includes "$" repl = false ->
  Js.search pat s = Some (before, after) ->
  Js.replace pat repl s = before ++ repl ++ after.
Proof.
  intros Hplain Hfound. unfold Js.replace.
  rewrite Hfound, (getSubstitution_plain _ _ _ _ Hplain). reflexivity.
Qed.

Lemma includes_string_of_uint (c : ascii) (d : Decimal.uint) :
  Json.isDigit c = false -> Js.includes c (NilEmpty.string_of_uint d) = false.
Proof.
  intros Hc. induction d; cbn [NilEmpty.string_of_uint Js.includes];
    [reflexivity | ..]; rewrite IHd, orb_false_r;
    match goal with
    | |- Ascii.eqb c ?k = false =>
        destruct (Ascii.eqb_spec c k) as [->|]; [discriminate Hc | reflexivity]
    end.
Qed.

(** So a count replaces the first [${count}] of a template literally. *)
Lemma replace_count (n : N) (template before after : string) :
  Js.search "${count}" template = Some (before, after) ->
  Js.replace "${count}" (Js.decimal n) template = before ++ Js.decimal n ++ after.
Proof.
  apply replace_plain. apply includes_string_of_uint. reflexivity.
Qed.

(** The string operations on small inputs. *)

Example replace_first_only :
  Js.replace "," "" ">=1.2, <1.5," = ">=1.2 <1.5,".
Proof. reflexivity. Qed.

Example replace_template :
  Js.replace "${version}" "2.0.0" "latest ${version} (${version})"
  = "latest 2.0.0 (${version})".
Proof. reflexivity. Qed.

Example replace_dollar_pattern :
  Js.replace "${version}" "a$&b$$" "x ${version} y" = "x a${version}b$ y".
Proof. reflexivity. Qed.

Example split_keeps_empty_segments :
  Js.split "010" ("a" ++ nl ++ nl ++ "b") = ["a"; ""; "b"].
Proof. reflexivity. Qed.

Example trim_both_ends : Js.trim (tab ++ " a b  " ++ nl) = "a b".
Proof. reflexivity. Qed.

Example substr_short : Js.substr 1 (String.length "7" - 2) "7" = "".
Proof. reflexivity. Qed.

Example stringify_escapes :
  Json.stringify (Json.Str ("a" ++ tab ++ "b"))
  = String dquote ("a" ++ String backslash ("tb" ++ String dquote "")).
Proof. reflexivity. Qed.

Example encodeURI_reserved : Uri.encodeURI "{a b}#%" = "%7Ba%20b%7D#%25".
Proof. reflexivity. Qed.

(** ** Classification *)

Section Classification.

Context `{Externals}.

Lemma decoration_no_error item versions prefs lang vuln error :
  Js.truthy error = false ->
  decoration item versions prefs lang vuln error
  = decoration item versions prefs lang vuln None.
Proof.
  destruct error as [[|c e]|]; simpl; intros Hfalsy;
    [reflexivity | discriminate | reflexivity].
Qed.

Lemma autoFill_returns item versions version :
  versions <> [] \/ Js.loose_eq version "?" = false ->
  exists calls, autoFill item versions version = Returns calls tt.
Proof.
  unfold autoFill. intros [Hne | Hq].
  - destruct (Js.loose_eq version "?"); [|eexists; reflexivity].
    destruct versions as [|v0 rest]; [congruence|]. eexists. reflexivity.
  - rewrite Hq. eexists. reflexivity.
Qed.

(** C1: with no error supplied the call returns and its classification
    follows the decision sequence: [ERROR] when the normalized declared
    value is not a valid range; otherwise, when
    [versions[0] !== maxSatisfying], [COMP] if [satisfies] and [INCOMP]
    if not; otherwise [COMP]. *)
Theorem C1_decision_sequence item versions prefs lang vuln error :
  Js.truthy error = false ->
  versions <> [] \/ Js.loose_eq (normalize (Item.value item)) "?" = false ->
  let version := normalize (Item.value item) in
  let satisfies := fst (checkVersion version versions) in
  let maxSatisfying := snd (checkVersion version versions) in
  exists type,
    classification (decoration item versions prefs lang vuln error) = Some type
    /\ Decision (validRange version)
         (Js.strict_neq (Js.of_option (versions !! 0%nat)) maxSatisfying)
         satisfies type.
Proof.
  intros Hfalsy Hfill version satisfies maxSatisfying.
  rewrite (decoration_no_error _ _ _ _ _ _ Hfalsy).
  destruct (autoFill_returns item versions version Hfill) as [calls Hcalls].
  unfold decoration, classification.
  subst satisfies maxSatisfying. fold version.
  destruct (checkVersion version versions) as [sat maxSat]; simpl.
  fold version. rewrite Hcalls; simpl.
  eexists; split; [reflexivity|].
  destruct (validRange version) eqn:Hvalid; simpl.
  - destruct (Js.strict_neq _ maxSat) eqn:Hdiff.
    + destruct sat; [apply decide_compatible | apply decide_incompatible];
        reflexivity.
    + apply decide_latest; reflexivity.
  - apply decide_error; reflexivity.
Qed.

(** The decision sequence leaves no choice. *)
Lemma Decision_functional valid differs satisfies t1 t2 :
  Decision valid differs satisfies t1 ->
  Decision valid differs satisfies t2 -> t1 = t2.
Proof. intros [] []; congruence. Qed.

End Classification.

(** The first scenario of the specification: [^1.0.0] against [2.0.0],
    [1.5.0], [1.0.0] is classified [COMP]. *)
Lemma C1_decision_sequence_witness :
  Js.truthy None = false
  /\ exists type,
       classification
         (@decoration Scenario.tabulated (Scenario.declared "^1.0.0")
            Scenario.versions Scenario.preferences Language.Rust None None)
       = Some type
       /\ Decision true true true type.
Proof.
  split; [reflexivity|].
  apply (@C1_decision_sequence Scenario.tabulated (Scenario.declared "^1.0.0")
           Scenario.versions Scenario.preferences Language.Rust None None);
    [reflexivity | left; discriminate].
Defined.

(** ** The error document, the inline text and the hover document *)

Section Builder.

Context `{Externals}.

Implicit Types (item : Item.t) (versions : list string)
  (prefs : DecorationPreferences) (lang : Language.t)
  (vuln : option (gmap string (list string))).

(** The call once [checkVersion] has answered and [autoFill] has
    returned. *)
Ltac run_decoration Hcalls :=
  unfold decoration;
  destruct (checkVersion _ _) as [sat maxSat];
  rewrite Hcalls;
  cbn [mbind mret Completion_bind Completion_ret returned callsOf fst snd].

Lemma formatError_fold (parts : list string) (m : MarkdownString.t) :
  fold_left
    (fun markdown part =>
       let markdown := MarkdownString.appendMarkdown markdown "* " in
       let markdown := appendText markdown (Js.trim part) in
       MarkdownString.appendMarkdown markdown nl)
    parts m
  = MarkdownString.mk
      (MarkdownString.value m ++ Js.join (errorBullet <$> parts))
      (MarkdownString.isTrusted m).
Proof.
  revert m. induction parts as [|part parts IH]; intros [text trusted]; simpl.
  - rewrite append_empty_r. reflexivity.
  - rewrite IH. simpl. unfold errorBullet.
    rewrite !append_assoc. reflexivity.
Qed.

Lemma formatError_value (error : string) :
  MarkdownString.value (formatError error)
  = "#### Errors " ++ nl
    ++ Js.join (errorBullet <$>
                  filter (fun s => s <> EmptyString) (Js.split "010" error)).
Proof. unfold formatError. rewrite formatError_fold. reflexivity. Qed.

Lemma decoration_error item versions prefs lang vuln c e :
  decoration item versions prefs lang vuln (Some (String c e))
  = Returns []
      (mkDecoration (placed item prefs) (formatError (String c e))
         (mkRenderOptions (position prefs) EmptyString),
       ERROR).
Proof.
  unfold decoration.
  destruct (checkVersion _ versions) as [sat maxSat]. reflexivity.
Qed.

(** C3 (amended): with a non-empty error string the call returns [ERROR];
    the hover document is the Errors heading followed by one bullet per
    non-empty line of the error, trimmed and escaped; the inline text is
    left empty, [errorText] is not consulted; no editor call is made. *)
Theorem C3_error_supplied item versions prefs lang vuln (error : string) :
  error <> EmptyString ->
  let call := decoration item versions prefs lang vuln (Some error) in
  classification call = Some ERROR
  /\ hoverText call
     = Some ("#### Errors " ++ nl
             ++ Js.join (errorBullet <$>
                           filter (fun s => s <> EmptyString)
                             (Js.split "010" error)))
  /\ inlineText call = Some EmptyString
  /\ callsOf call = [].
Proof.
  intros Hne call. subst call.
  destruct error as [|c e]; [congruence|].
  rewrite decoration_error.
  unfold classification, hoverText, inlineText, returned, callsOf.
  cbn [hoverMessage renderOptions contentText].
  rewrite formatError_value. repeat split.
Qed.

(** The loop of [appendVersions] appends one bullet per version, in
    order, each built with its index. *)
Lemma appendVersionsFrom_value i (m : MarkdownString.t) versions item
    maxSat vuln prefs lang :
  appendVersionsFrom i m versions item maxSat vuln prefs lang
  = MarkdownString.mk
      (MarkdownString.value m
       ++ Js.join (imap (fun j version =>
                           nl ++ " * "
                           ++ versionCommand item maxSat vuln prefs lang
                                (i + j) version)
                     versions))
      (MarkdownString.isTrusted m).
Proof.
  revert i m.
  induction versions as [|version rest IH]; intros i [text trusted].
  - simpl. rewrite append_empty_r. reflexivity.
  - cbn [appendVersionsFrom]. rewrite IH.
    set (bullet := fun k version =>
           nl ++ " * " ++ versionCommand item maxSat vuln prefs lang k version).
    change (imap _ (version :: rest))
      with (imap (fun j => bullet (i + j)%nat) (version :: rest)).
    change (imap _ rest) with (imap (fun j => bullet (S i + j)%nat) rest).
    rewrite imap_cons.
    rewrite (imap_ext ((fun j => bullet (i + j)%nat) ∘ S)
               (fun j => bullet (S i + j)%nat) rest)
      by (intros j v _; simpl; rewrite Nat.add_succ_r; reflexivity).
    cbn [MarkdownString.appendMarkdown MarkdownString.value
         MarkdownString.isTrusted Js.join].
    subst bullet. cbv beta.
    rewrite Nat.add_0_r, !append_assoc. reflexivity.
Qed.

Lemma hoverText_no_error item versions prefs lang vuln calls :
  autoFill item versions (normalize (Item.value item)) = Returns calls tt ->
  hoverText (decoration item versions prefs lang vuln None)
  = Some (MarkdownString.value
            (appendVulnerabilities (MarkdownString.new EmptyString) vuln
               (normalize (Item.value item)))
          ++ "#### Versions" ++ getLinks lang (Item.key item)
          ++ Js.join
               (imap (fun i version =>
                        nl ++ " * "
                        ++ versionCommand item
                             (Js.nullish
                                (snd (checkVersion (normalize (Item.value item))
                                        versions))
                                EmptyString)
                             vuln prefs lang i version)
                  versions)).
Proof.
  intros Hcalls. unfold hoverText. run_decoration Hcalls.
  cbn [hoverMessage]. unfold appendVersions. rewrite appendVersionsFrom_value.
  cbn [MarkdownString.value MarkdownString.trust MarkdownString.appendMarkdown].
  rewrite !append_assoc. reflexivity.
Qed.

Lemma callsOf_no_error item versions prefs lang vuln :
  callsOf (decoration item versions prefs lang vuln None)
  = callsOf (autoFill item versions (normalize (Item.value item))).
Proof.
  unfold decoration.
  destruct (checkVersion _ _) as [sat maxSat].
  destruct (autoFill _ _ _) as [calls []|calls];
    cbn [mbind mret Completion_bind Completion_ret callsOf];
    [rewrite !app_nil_r|]; reflexivity.
Qed.

Lemma classification_no_error item versions prefs lang vuln calls :
  autoFill item versions (normalize (Item.value item)) = Returns calls tt ->
  classification (decoration item versions prefs lang vuln None)
  = Some (let version := normalize (Item.value item) in
          let '(satisfies, maxSatisfying) := checkVersion version versions in
          if negb (validRange version) then ERROR
          else if Js.strict_neq (Js.of_option (versions !! 0%nat)) maxSatisfying
               then (if satisfies then COMP else INCOMP)
               else COMP).
Proof.
  intros Hcalls. unfold classification. run_decoration Hcalls. reflexivity.
Qed.

Lemma inlineText_no_error item versions prefs lang vuln calls :
  autoFill item versions (normalize (Item.value item)) = Returns calls tt ->
  exists type,
    classification (decoration item versions prefs lang vuln None) = Some type
    /\ inlineText (decoration item versions prefs lang vuln None)
       = Some (Js.replace "${version}" (Js.to_string (versions !! 0%nat))
                 (getContentText prefs type)
               ++ match vulnGet vuln (normalize (Item.value item)) with
                  | Some ((_ :: _) as advisories) =>
                      tab ++ Js.replace "${count}"
                               (Js.decimal (N.of_nat (length advisories)))
                               (vulnText prefs)
                  | _ => EmptyString
                  end).
Proof.
  intros Hcalls. unfold classification, inlineText. run_decoration Hcalls.
  eexists. split; [reflexivity|].
  cbn [renderOptions].
  destruct (vulnGet vuln _) as [[|a l]|]; cbn [contentText];
    rewrite ?append_empty_r; reflexivity.
Qed.

(** C7 (amended): with no error supplied, when the normalized declared
    value, as a key of the vulnerability map, has at least one advisory,
    the inline text is the state template with [${version}] replaced by
    [versions[0]], a tab, and [vulnText] with [${count}] replaced by the
    number of advisories under that key. *)
Theorem C7_vulnerability_suffix item versions prefs lang vuln error advisories :
  Js.truthy error = false ->
  versions <> [] \/ Js.loose_eq (normalize (Item.value item)) "?" = false ->
  vulnGet vuln (normalize (Item.value item)) = Some advisories ->
  advisories <> [] ->
  exists type,
    classification (decoration item versions prefs lang vuln error) = Some type
    /\ inlineText (decoration item versions prefs lang vuln error)
       = Some (Js.replace "${version}" (Js.to_string (versions !! 0%nat))
                 (getContentText prefs type)
               ++ tab
               ++ Js.replace "${count}" (Js.decimal (N.of_nat (length advisories)))
                    (vulnText prefs)).
Proof.
  intros Hfalsy Hfill Hget Hsome.
  rewrite (decoration_no_error _ _ _ _ _ _ Hfalsy).
  destruct (autoFill_returns item versions _ Hfill) as [calls Hcalls].
  destruct (inlineText_no_error item versions prefs lang vuln calls Hcalls)
    as (type & Htype & Htext).
  exists type. split; [exact Htype|].
  rewrite Htext, Hget. destruct advisories; [congruence | reflexivity].
Qed.

Lemma isBold_versionCommand item current vuln prefs lang i version :
  isBold (versionCommand item current vuln prefs lang i version)
  = String.eqb version current.
Proof.
  unfold versionCommand, isBold.
  destruct (String.eqb version current); reflexivity.
Qed.

(** Counting through an indexed map. *)
Lemma filter_imap_length {A B} (f : nat -> A -> B) (g : B -> bool)
    (h : A -> bool) (l : list A) :
  (forall i x, g (f i x) = h x) ->
  length (List.filter g (imap f l)) = length (List.filter h l).
Proof.
  revert f. induction l as [|x l IH]; intros f Hgf; [reflexivity|].
  rewrite imap_cons. cbn [List.filter]. rewrite Hgf.
  assert (length (List.filter g (imap (f ∘ S) l)) = length (List.filter h l))
    as Hrest by (apply IH; intros i y; apply Hgf).
  destruct (h x); cbn [length]; rewrite Hrest; reflexivity.
Qed.

(** C8 (amended): with no error supplied the hover document ends with one
    bullet per entry of [versions], in order; a bullet is bold exactly
    when its entry equals [maxSatisfying ?? ""], so there are as many bold
    bullets as entries equal to it; the first bullet and the bold ones
    carry the documentation link of the ecosystem, which is empty for an
    ecosystem the switch does not name. *)
Theorem C8_version_bullets item versions prefs lang vuln error :
  Js.truthy error = false ->
  versions <> [] \/ Js.loose_eq (normalize (Item.value item)) "?" = false ->
  let version := normalize (Item.value item) in
  let current := Js.nullish (snd (checkVersion version versions)) EmptyString in
  let bullet := versionCommand item current vuln prefs lang in
  hoverText (decoration item versions prefs lang vuln error)
  = Some (MarkdownString.value
            (appendVulnerabilities (MarkdownString.new EmptyString) vuln version)
          ++ "#### Versions" ++ getLinks lang (Item.key item)
          ++ Js.join (imap (fun i v => nl ++ " * " ++ bullet i v) versions))
  /\ (forall i v, isBold (bullet i v) = String.eqb v current)
  /\ length (List.filter isBold (imap bullet versions))
     = length (List.filter (fun v => String.eqb v current) versions)
  /\ (forall i v,
        let mark := if String.eqb v current then "**" else EmptyString in
        bullet i v
        = mark ++ "[" ++ v ++ "](command:" ++ REPLACE_VERSIONS ++ "?"
          ++ encodedPayload item v ++ ")"
          ++ (if (i =? 0)%nat || String.eqb v current
              then getDocsLink lang (Item.key item) v else EmptyString)
          ++ mark ++ "  " ++ entryVulnText prefs vuln v)
  /\ getDocsLink Language.Other (Item.key item) = fun _ => EmptyString.
Proof.
  intros Hfalsy Hfill version current bullet.
  rewrite (decoration_no_error _ _ _ _ _ _ Hfalsy).
  destruct (autoFill_returns item versions _ Hfill) as [calls Hcalls].
  split; [exact (hoverText_no_error item versions prefs lang vuln calls Hcalls)|].
  split; [intros i v; apply isBold_versionCommand|].
  split; [apply filter_imap_length; intros i v; apply isBold_versionCommand|].
  split; [intros i v; reflexivity | reflexivity].
Qed.

(** What the auto-fill writes for the placeholder. *)
Lemma autoFill_placeholder item value rest :
  autoFill item (value :: rest) (Some "?")
  = Returns [EditReplace (Item.range item)
               (Js.substr 1 (String.length value - 2) value);
             DocumentSave] tt.
Proof. reflexivity. Qed.

(** C5 (amended): for a declared value that is exactly the placeholder,
    with no error supplied, the auto-fill is issued (the edit, then the
    save) and the call still classifies; the validity check is applied to
    the placeholder itself, not to [versions[0]]: the result is [ERROR]
    exactly when [?] is not a valid range. *)
Theorem C5_placeholder_validity item value rest prefs lang vuln error :
  Item.value item = Some "?" ->
  Js.truthy error = false ->
  let call := decoration item (value :: rest) prefs lang vuln error in
  callsOf call
  = [EditReplace (Item.range item) (Js.substr 1 (String.length value - 2) value);
     DocumentSave]
  /\ (classification call = Some ERROR <-> validRange (Some "?") = false).
Proof.
  intros Hvalue Hfalsy call. subst call.
  rewrite (decoration_no_error _ _ _ _ _ _ Hfalsy).
  assert (Hfill : autoFill item (value :: rest) (normalize (Item.value item))
                  = Returns [EditReplace (Item.range item)
                               (Js.substr 1 (String.length value - 2) value);
                             DocumentSave] tt)
    by (rewrite Hvalue; reflexivity).
  split.
  - rewrite callsOf_no_error, Hfill. reflexivity.
  - rewrite (classification_no_error _ _ _ _ _ _ Hfill), Hvalue.
    cbv zeta. change (normalize (Some "?")) with (Some "?").
    destruct (checkVersion _ _) as [sat maxSat].
    destruct (validRange (Some "?")); cbn [negb].
    + destruct (Js.strict_neq _ _); [destruct sat|]; split; discriminate.
    + split; reflexivity.
Qed.

(** The classification reads [item] through its normalized value only. *)
Lemma classification_normalized item1 item2 versions prefs lang vuln error :
  normalize (Item.value item1) = normalize (Item.value item2) ->
  classification (decoration item1 versions prefs lang vuln error)
  = classification (decoration item2 versions prefs lang vuln error).
Proof.
  intros Hsame. unfold classification, decoration. rewrite Hsame.
  destruct (checkVersion _ _) as [sat maxSat].
  destruct error as [[|c e]|]; unfold autoFill;
    try reflexivity;
    destruct (Js.loose_eq _ _); try reflexivity;
    destruct (versions !! 0%nat); reflexivity.
Qed.

(** C9 (amended): the declared value is normalized by removing its first
    comma, wherever it stands; a value without comma is used unchanged (so
    a value whose only comma is its last character loses exactly that
    comma); and the classification depends on the item through the
    normalized value only. *)
Theorem C9_normalize_first_comma :
  (forall a b, Js.includes "," a = false ->
     normalize (Some (a ++ String "," b)) = Some (a ++ b))
  /\ (forall v, Js.includes "," v = false -> normalize (Some v) = Some v)
  /\ normalize None = None
  /\ (forall item1 item2 versions prefs lang vuln error,
        normalize (Item.value item1) = normalize (Item.value item2) ->
        classification (decoration item1 versions prefs lang vuln error)
        = classification (decoration item2 versions prefs lang vuln error)).
Proof.
  repeat split.
  - intros a b Ha. unfold normalize, Js.replace.
    rewrite (search_comma_first a b Ha). reflexivity.
  - intros v Hv. unfold normalize, Js.replace.
    rewrite (search_comma_none v Hv). reflexivity.
  - apply classification_normalized.
Qed.

End Builder.

(** C3 as stated fails on its last part: with an error supplied the inline
    text is empty, not [errorText] with the version filled in. *)
Lemma C3_counterexample :
  inlineText
    (@decoration Scenario.tabulated (Scenario.declared "^1.0.0") Scenario.versions
       Scenario.preferences Language.Rust None (Some "registry unreachable"))
  = Some EmptyString
  /\ Js.replace "${version}" "2.0.0" (errorText Scenario.preferences)
     = "invalid 2.0.0".
Proof. split; reflexivity. Qed.

(** An error of three lines, one of them empty. *)
Lemma C3_error_supplied_witness :
  "a*b" ++ nl ++ nl ++ " c " <> EmptyString
  /\ let call :=
       @decoration Scenario.tabulated (Scenario.declared "^1.0.0") Scenario.versions
         Scenario.preferences Language.Rust None (Some ("a*b" ++ nl ++ nl ++ " c ")) in
     classification call = Some ERROR
     /\ hoverText call
        = Some ("#### Errors " ++ nl ++ "* a" ++ String backslash "*b" ++ nl
                ++ "* c" ++ nl)
     /\ inlineText call = Some EmptyString
     /\ callsOf call = [].
Proof.
  split; [discriminate|].
  apply (@C3_error_supplied Scenario.tabulated (Scenario.declared "^1.0.0")
           Scenario.versions Scenario.preferences Language.Rust None
           ("a*b" ++ nl ++ nl ++ " c ")).
  discriminate.
Defined.

(** C4 at the failing input: for the placeholder and [versions[0]] equal
    to [1.2.3] the edit writes [.2.] over the range, then saves; the
    version has no quotes to strip. *)
Theorem C4_autofill_writes_stripped_version :
  callsOf
    (@decoration Scenario.tabulated (Scenario.declared "?") ["1.2.3"; "1.2.2"]
       Scenario.preferences Language.Rust None None)
  = [EditReplace (newRange 7 8 7 15) ".2."; DocumentSave].
Proof. reflexivity. Qed.

(** C5 as stated fails: [versions[0]] is a valid range and the
    classification is [ERROR] all the same, because the check reads the
    placeholder. *)
Lemma C5_counterexample :
  validRange (Externals := Scenario.tabulated) (Some "1.2.3") = true
  /\ classification
       (@decoration Scenario.tabulated (Scenario.declared "?") ["1.2.3"; "1.2.2"]
          Scenario.preferences Language.Rust None None)
     = Some ERROR.
Proof. split; reflexivity. Qed.

(** The placeholder against [1.2.3], [1.2.2]. *)
Lemma C5_placeholder_validity_witness :
  Item.value (Scenario.declared "?") = Some "?"
  /\ Js.truthy None = false
  /\ let call :=
       @decoration Scenario.tabulated (Scenario.declared "?") ("1.2.3" :: ["1.2.2"])
         Scenario.preferences Language.Rust None None in
     callsOf call = [EditReplace (newRange 7 8 7 15) ".2."; DocumentSave]
     /\ (classification call = Some ERROR
         <-> validRange (Externals := Scenario.tabulated) (Some "?") = false).
Proof.
  split; [reflexivity|]. split; [reflexivity|].
  apply (@C5_placeholder_validity Scenario.tabulated (Scenario.declared "?")
           "1.2.3" ["1.2.2"] Scenario.preferences Language.Rust None None);
    reflexivity.
Defined.

(** C7 as stated fails: the resolved version [1.5.0] has two advisories,
    the declared value [^1.0.0] is not a key of the map, and the inline
    text carries no count. *)
Lemma C7_counterexample :
  snd (checkVersion (Externals := Scenario.tabulated) (Some "^1.0.0") Scenario.versions)
  = Js.str "1.5.0"
  /\ vulnGet Scenario.advisories (Some "1.5.0") = Some ["OSV-1"; "OSV-2"]
  /\ inlineText
       (@decoration Scenario.tabulated (Scenario.declared "^1.0.0") Scenario.versions
          Scenario.preferences Language.Rust Scenario.advisories None)
     = Some "latest 2.0.0".
Proof. repeat split; vm_compute; reflexivity. Qed.

(** The scenario of the specification with [1.5.0] declared: the count
    appended is 2. *)
Lemma C7_vulnerability_suffix_witness :
  Js.truthy None = false
  /\ vulnGet Scenario.advisories (normalize (Item.value (Scenario.declared "1.5.0")))
     = Some ["OSV-1"; "OSV-2"]
  /\ exists type,
       classification
         (@decoration Scenario.tabulated (Scenario.declared "1.5.0") Scenario.versions
            Scenario.preferences Language.Rust Scenario.advisories None)
       = Some type
       /\ inlineText
            (@decoration Scenario.tabulated (Scenario.declared "1.5.0")
               Scenario.versions Scenario.preferences Language.Rust
               Scenario.advisories None)
          = Some (Js.replace "${version}" "2.0.0"
                    (getContentText Scenario.preferences type)
                  ++ tab ++ "2 advisories").
Proof.
  split; [reflexivity|]. split; [vm_compute; reflexivity|].
  apply (@C7_vulnerability_suffix Scenario.tabulated (Scenario.declared "1.5.0")
           Scenario.versions Scenario.preferences Language.Rust
           Scenario.advisories None ["OSV-1"; "OSV-2"]);
    [reflexivity | left; discriminate | vm_compute; reflexivity | discriminate].
Defined.

(** C8 as stated fails: with [1.5.0] listed twice two bullets are bold,
    and for an ecosystem the switch does not name the first bullet carries
    no documentation link. *)
Lemma C8_counterexample :
  let item := Scenario.declared "^1.0.0" in
  let versions := ["2.0.0"; "1.5.0"; "1.5.0"] in
  let bullets :=
    imap (@versionCommand Scenario.tabulated item "1.5.0" None
            Scenario.preferences Language.Other) versions in
  snd (checkVersion (Externals := Scenario.tabulated) (Some "^1.0.0") versions)
  = Js.str "1.5.0"
  /\ hoverText
       (@decoration Scenario.tabulated item versions Scenario.preferences
          Language.Other None None)
     = Some ("#### Versions" ++ Js.join ((fun b => nl ++ " * " ++ b) <$> bullets))
  /\ isBold <$> bullets = [false; true; true]
  /\ bullets !! 0%nat
     = Some ("[2.0.0](command:dependi.replaceVersion?"
             ++ @encodedPayload item "2.0.0" ++ ")  ").
Proof. repeat split. Qed.

(** The first scenario of the specification, rendered for Rust. *)
Lemma C8_version_bullets_witness :
  Js.truthy None = false
  /\ let item := Scenario.declared "^1.0.0" in
     let bullet :=
       @versionCommand Scenario.tabulated item "1.5.0" None Scenario.preferences
         Language.Rust in
     hoverText
       (@decoration Scenario.tabulated item Scenario.versions Scenario.preferences
          Language.Rust None None)
     = Some ("#### Versions"
             ++ " _( [View Crate](https://crates.io/crates/serde) | [Check Reviews](https://web.crev.dev/rust-reviews/crate/serde) )_"
             ++ nl ++ " * " ++ bullet 0%nat "2.0.0"
             ++ nl ++ " * " ++ bullet 1%nat "1.5.0"
             ++ nl ++ " * " ++ bullet 2%nat "1.0.0")
     /\ (forall i v, isBold (bullet i v) = String.eqb v "1.5.0")
     /\ length (List.filter isBold (imap bullet Scenario.versions)) = 1%nat
     /\ (forall i v,
           let mark := if String.eqb v "1.5.0" then "**" else EmptyString in
           bullet i v
           = mark ++ "[" ++ v ++ "](command:dependi.replaceVersion?"
             ++ @encodedPayload item v ++ ")"
             ++ (if (i =? 0)%nat || String.eqb v "1.5.0"
                 then "[(docs)](https://docs.rs/crate/serde/" ++ v ++ ")"
                 else EmptyString)
             ++ mark ++ "  ")
     /\ @getDocsLink Language.Other "serde" = fun _ => EmptyString.
Proof.
  split; [reflexivity|].
  apply (@C8_version_bullets Scenario.tabulated (Scenario.declared "^1.0.0")
           Scenario.versions Scenario.preferences Language.Rust None None);
    [reflexivity | left; discriminate].
Defined.

(** C9 as stated fails: a comma inside the value is removed though it is
    not trailing, and then a trailing comma stays. *)
Lemma C9_counterexample :
  normalize (Some ">=1.2, <1.5") = Some ">=1.2 <1.5"
  /\ stripTrailingComma ">=1.2, <1.5" = ">=1.2, <1.5"
  /\ normalize (Some "1.0,2.0,") = Some "1.02.0,"
  /\ stripTrailingComma "1.0,2.0," = "1.0,2.0".
Proof. repeat split. Qed.

(** A trailing comma, and no comma. *)
Lemma C9_normalize_first_comma_witness :
  Js.includes "," "^1.0.0" = false
  /\ normalize (Some ("^1.0.0" ++ String "," EmptyString)) = Some "^1.0.0"
  /\ normalize (Some "^1.0.0") = Some "^1.0.0".
Proof.
  destruct (@C9_normalize_first_comma Scenario.tabulated)
    as (Hfirst & Hnone & _ & _).
  split; [reflexivity|]. split.
  - rewrite (Hfirst "^1.0.0" EmptyString); reflexivity.
  - apply (Hnone "^1.0.0"); reflexivity.
Defined.

(** ** The replace commands *)

Section Commands.

Implicit Types (status : Status) (items : list ReplaceItem.t).

Lemma rangeOf_range (info : ReplaceItem.t) : rangeOf info = ReplaceItem.range info.
Proof. destruct info as [v [[sl sc] [el ec]]]. reflexivity. Qed.

(** The countdown loop visits the first [n] instructions, last one first. *)
Lemma replaceDownFrom_take items n :
  n <= length items ->
  replaceDownFrom items n = applied <$> reverse (take n items).
Proof.
  induction n as [|i IH]; intros Hn; simpl.
  - reflexivity.
  - destruct (lookup_lt_is_Some_2 items i) as [rItem Hi]; [lia|].
    rewrite Hi, (take_S_r _ _ _ Hi), reverse_snoc, fmap_cons, IH by lia.
    unfold applied at 1. rewrite rangeOf_range. reflexivity.
Qed.

Lemma replaceDownFrom_all items :
  replaceDownFrom items (length items) = applied <$> reverse items.
Proof. rewrite replaceDownFrom_take, take_ge by lia. reflexivity. Qed.

(** C2 (amended): for a non-empty queue and with no replace in progress,
    [updateAll] applies the queued instructions last-queued first and then
    saves the document once; with a replace in progress it applies nothing
    and does not save. *)
Theorem C2_updateAll_reverse_order status :
  replaceItems status <> [] ->
  updateAll status
  = if inProgress status then (status, [])
    else (mkStatus false (replaceItems status),
          (applied <$> reverse (replaceItems status)) ++ [WorkspaceSave])%list.
Proof.
  intros Hne. unfold updateAll.
  destruct (inProgress status); simpl; [reflexivity|].
  destruct (replaceItems status) as [|rItem items] eqn:Hitems; [congruence|].
  change (0 <? length (rItem :: items))%nat with true. cbv iota.
  rewrite replaceDownFrom_all. reflexivity.
Qed.

(** What [replaceVersion] does while a replace is in progress. *)
Lemma replaceVersion_in_progress status info :
  inProgress status = true ->
  replaceVersion status info = (status, [WorkspaceSave]).
Proof.
  intros Hbusy. unfold replaceVersion. rewrite Hbusy.
  destruct info; reflexivity.
Qed.

(** What [replaceVersion] does otherwise, given an instruction. *)
Lemma replaceVersion_idle status info :
  inProgress status = false ->
  replaceVersion status (Some info)
  = (mkStatus false (replaceItems status), [applied info; WorkspaceSave]).
Proof.
  intros Hidle. unfold replaceVersion. rewrite Hidle. simpl.
  unfold applied. rewrite rangeOf_range. reflexivity.
Qed.

End Commands.

(** The queue [[A; B]] of the specification: [B] is applied before [A]. *)
Lemma C2_updateAll_reverse_order_witness :
  replaceItems (mkStatus false [Scenario.A; Scenario.B]) <> []
  /\ updateAll (mkStatus false [Scenario.A; Scenario.B])
     = (mkStatus false [Scenario.A; Scenario.B],
        [applied Scenario.B; applied Scenario.A; WorkspaceSave]).
Proof.
  split; [discriminate|].
  apply (C2_updateAll_reverse_order (mkStatus false [Scenario.A; Scenario.B])).
  discriminate.
Defined.

(** C2 as stated fails while a replace is in progress: the queue [[A; B]]
    is left unapplied and nothing is saved. *)
Lemma C2_counterexample :
  replaceItems (mkStatus true [Scenario.A; Scenario.B]) <> []
  /\ snd (updateAll (mkStatus true [Scenario.A; Scenario.B])) = []
  /\ snd (updateAll (mkStatus true [Scenario.A; Scenario.B]))
     <> [applied Scenario.B; applied Scenario.A; WorkspaceSave].
Proof. repeat split; discriminate. Qed.

(** C6 at the failing input: with the flag set, [replaceVersion] leaves
    the document and the queue alone, yet still issues the save. *)
Theorem C6_replaceVersion_saves_while_in_progress :
  replaceVersion (mkStatus true [Scenario.A]) (Some Scenario.B)
  = (mkStatus true [Scenario.A], [WorkspaceSave]).
Proof. reflexivity. Qed.

(** ** The payload *)

(** *** Percent-encoding *)

Lemma decode_encodeUnit (c : ascii) (rest : string) :
  Uri.decodeURIComponent (Uri.encodeUnit c ++ rest)
  = Uri.consUnit c (Uri.decodeURIComponent rest).
Proof.
  destruct c as [[] [] [] [] [] [] [] []]; reflexivity.
Qed.

Lemma decode_encodeURI (s : string) :
  Uri.decodeURIComponent (Uri.encodeURI s) = Some s.
Proof.
  induction s as [|c s IH]; [reflexivity|].
  cbn [Uri.encodeURI]. rewrite decode_encodeUnit, IH. reflexivity.
Qed.

(** *** String literals *)

Lemma parseChars_escapeUnit (c : ascii) (rest : string) :
  Json.parseChars (Json.escapeUnit c ++ rest)
  = Json.consUnit c (Json.parseChars rest).
Proof.
  destruct c as [[] [] [] [] [] [] [] []]; reflexivity.
Qed.

Lemma parseChars_escapeUnits (s rest : string) :
  Json.parseChars (Json.escapeUnits s ++ String dquote rest) = Some (s, rest).
Proof.
  induction s as [|c s IH]; [reflexivity|].
  cbn [Json.escapeUnits]. rewrite append_assoc, parseChars_escapeUnit, IH.
  reflexivity.
Qed.

Lemma quote_append (s rest : string) :
  Json.quote s ++ rest = String dquote (Json.escapeUnits s ++ String dquote rest).
Proof. unfold Json.quote. cbn [String.append]. rewrite append_assoc. reflexivity. Qed.

(** *** Numbers *)

Lemma takeDigits_string_of_uint (d : Decimal.uint) (c : ascii) (rest : string) :
  Json.isDigit c = false ->
  Json.takeDigits (NilEmpty.string_of_uint d ++ String c rest)
  = (NilEmpty.string_of_uint d, String c rest).
Proof.
  intros Hc. induction d; cbn [NilEmpty.string_of_uint String.append Json.takeDigits];
    [rewrite Hc; reflexivity | ..];
    change (Json.isDigit _) with true; cbv iota; rewrite IHd; reflexivity.
Qed.

Lemma to_uint_normal (n : N) : Decimal.unorm (N.to_uint n) = N.to_uint n.
Proof.
  rewrite <- (DecimalN.Unsigned.of_to n) at 2.
  rewrite DecimalN.Unsigned.to_of. reflexivity.
Qed.

Lemma normal_head (u : Decimal.uint) :
  Decimal.unorm u = u -> u = Decimal.D0 Decimal.Nil \/ forall d, u <> Decimal.D0 d.
Proof.
  intros Hnorm. pose proof (nzhead_nonzero u) as Hnz.
  unfold Decimal.unorm in Hnorm.
  destruct (Decimal.nzhead u) eqn:Hhead;
    [left; congruence | exfalso; exact (Hnz _ eq_refl) | ..];
    right; intros d' Hu; congruence.
Qed.

Lemma leadingZero_decimal (n : N) : Json.leadingZero (Js.decimal n) = false.
Proof.
  unfold Js.decimal.
  destruct (normal_head _ (to_uint_normal n)) as [-> | Hhead]; [reflexivity|].
  destruct (N.to_uint n) as [|d|d|d|d|d|d|d|d|d|d];
    [reflexivity | exfalso; exact (Hhead d eq_refl) | ..];
    cbn [NilEmpty.string_of_uint Json.leadingZero];
    destruct (NilEmpty.string_of_uint d); reflexivity.
Qed.

Lemma decimal_nonempty (n : N) :
  exists c ds, Js.decimal n = String c ds /\ Json.isDigit c = true.
Proof.
  unfold Js.decimal.
  pose proof (unorm_nonnil (N.to_uint n)) as Hnn. rewrite to_uint_normal in Hnn.
  destruct (N.to_uint n); [congruence | ..]; eexists _, _; split; reflexivity.
Qed.

Lemma parseNumber_decimal (n : N) (c : ascii) (rest : string) :
  delimiter c ->
  Json.parseNumber (Js.decimal n ++ String c rest)
  = Some (Json.Number n, String c rest).
Proof.
  intros Hc. unfold Json.parseNumber.
  assert (Json.isDigit c = false) as Hdigit by (destruct Hc; subst; reflexivity).
  assert (Json.startsFraction (String c rest) = false) as Hfrac
    by (destruct Hc; subst; reflexivity).
  unfold Js.decimal at 1. rewrite (takeDigits_string_of_uint _ _ _ Hdigit).
  fold (Js.decimal n). rewrite leadingZero_decimal, Hfrac. cbn [orb].
  destruct (decimal_nonempty n) as (d & ds & Heq & _). rewrite Heq at 1.
  unfold Js.decimal. rewrite NilEmpty.usu, DecimalN.Unsigned.of_to. reflexivity.
Qed.

(** *** Values *)

Lemma parseValue_number (fuel : nat) (n : N) (c : ascii) (rest : string) :
  delimiter c ->
  Json.parseValue (S fuel) (Js.decimal n ++ String c rest)
  = Some (Json.Number n, String c rest).
Proof.
  intros Hc. rewrite <- (parseNumber_decimal n c rest Hc).
  destruct (decimal_nonempty n) as (d & ds & Heq & Hd). rewrite Heq.
  cbn [String.append Json.parseValue Json.skipWs].
  assert (Json.isWs d = false) as Hws.
  { revert Hd. destruct d as [[] [] [] [] [] [] [] []]; vm_compute; congruence. }
  assert (Ascii.eqb d dquote = false /\ Ascii.eqb d "{" = false
          /\ Ascii.eqb d "[" = false) as (H1 & H2 & H3).
  { revert Hd. destruct d as [[] [] [] [] [] [] [] []]; vm_compute; repeat split; congruence. }
  rewrite Hws, H1, H2, H3, Hd. reflexivity.
Qed.

Lemma parseValue_string (fuel : nat) (s rest : string) :
  Json.parseValue (S fuel) (Json.quote s ++ rest) = Some (Json.Str s, rest).
Proof.
  rewrite quote_append. cbn [Json.parseValue Json.skipWs].
  change (Json.isWs dquote) with false. cbv iota.
  change (Ascii.eqb dquote dquote) with true. cbv iota.
  rewrite parseChars_escapeUnits. reflexivity.
Qed.

(** An object whose first member follows: the members decide. *)
Lemma parseValue_object (fuel : nat) (k rest : string) :
  Json.parseValue (S fuel) (String "{" (Json.quote k ++ rest))
  = match Json.parseMembers fuel (Json.quote k ++ rest) with
    | Some (m, rest') => Some (Json.Object m, rest')
    | None => None
    end.
Proof. rewrite quote_append. reflexivity. Qed.

(** A member: its name, a colon, its value, and what follows the value. *)
Lemma parseMembers_member (fuel : nat) (k rest : string) :
  Json.parseMembers (S fuel) (Json.quote k ++ String ":" rest)
  = match Json.parseValue fuel rest with
    | None => None
    | Some (v, rest3) =>
        match Json.skipWs rest3 with
        | EmptyString => None
        | String d rest4 =>
            if Ascii.eqb d "," then
              match Json.parseMembers fuel rest4 with
              | Some (m, rest5) => Some ((k, v) :: m, rest5)
              | None => None
              end
            else if Ascii.eqb d "}" then Some ([(k, v)], rest4)
            else None
        end
    end.
Proof.
  rewrite quote_append. cbn [Json.parseMembers Json.skipWs].
  change (Json.isWs dquote) with false. cbv iota.
  change (Ascii.eqb dquote dquote) with true. cbv iota.
  rewrite parseChars_escapeUnits. reflexivity.
Qed.

Lemma parseValue_members (fuel : nat) (k rest : string) m rest' :
  Json.parseMembers fuel (Json.quote k ++ rest) = Some (m, rest') ->
  Json.parseValue (S fuel) (String "{" (Json.quote k ++ rest))
  = Some (Json.Object m, rest').
Proof. intros Hm. rewrite parseValue_object, Hm. reflexivity. Qed.

Lemma parseMembers_more (fuel : nat) (k V : string) v M m rest :
  Json.parseValue fuel V = Some (v, String "," M) ->
  Json.parseMembers fuel M = Some (m, rest) ->
  Json.parseMembers (S fuel) (Json.quote k ++ String ":" V)
  = Some ((k, v) :: m, rest).
Proof.
  intros Hv Hm. rewrite parseMembers_member, Hv.
  change (Json.skipWs (String "," M)) with (String "," M). cbv iota.
  change (Ascii.eqb "," ",") with true. cbv iota.
  rewrite Hm. reflexivity.
Qed.

Lemma parseMembers_last (fuel : nat) (k V : string) v rest :
  Json.parseValue fuel V = Some (v, String "}" rest) ->
  Json.parseMembers (S fuel) (Json.quote k ++ String ":" V)
  = Some ([(k, v)], rest).
Proof. intros Hv. rewrite parseMembers_member, Hv. reflexivity. Qed.

(** Texts as right-nested concatenations. *)
Ltac flatten_text :=
  repeat first [rewrite !append_assoc | progress cbn [String.append]].

Lemma stringify_position (p : Position) (rest : string) :
  Json.stringify (positionJson p) ++ rest = positionText p rest.
Proof.
  unfold positionJson, positionText. cbn [Json.stringify].
  flatten_text. reflexivity.
Qed.

Lemma stringify_replaceItem (r : ReplaceItem.t) (rest : string) :
  Json.stringify (replaceItemJson r) ++ rest = replaceItemText r rest.
Proof.
  unfold replaceItemJson, replaceItemText.
  rewrite <- !stringify_position.
  cbn [Json.stringify]. flatten_text. reflexivity.
Qed.

Lemma parseValue_position (fuel : nat) (p : Position) (rest : string) :
  Json.parseValue (4 + fuel) (positionText p rest) = Some (positionJson p, rest).
Proof.
  apply parseValue_members.
  eapply parseMembers_more; [apply parseValue_number; left; reflexivity|].
  eapply parseMembers_last. apply parseValue_number. right; reflexivity.
Qed.

Lemma parseValue_replaceItem (fuel : nat) (r : ReplaceItem.t) (rest : string) :
  Json.parseValue (10 + fuel) (replaceItemText r rest)
  = Some (replaceItemJson r, rest).
Proof.
  apply parseValue_members.
  eapply parseMembers_more; [apply parseValue_string|].
  eapply parseMembers_last.
  apply parseValue_members.
  eapply parseMembers_more; [apply (parseValue_position (1 + fuel))|].
  eapply parseMembers_last. apply (parseValue_position fuel).
Qed.

Lemma replaceItemText_length (r : ReplaceItem.t) (rest : string) :
  9 <= String.length (replaceItemText r rest).
Proof.
  unfold replaceItemText. rewrite quote_append. simpl. lia.
Qed.

Lemma parse_stringify_replaceItem (r : ReplaceItem.t) :
  Json.parse (Json.stringify (replaceItemJson r)) = Some (replaceItemJson r).
Proof.
  rewrite <- (append_empty_r (Json.stringify _)), stringify_replaceItem.
  unfold Json.parse.
  pose proof (replaceItemText_length r EmptyString) as Hlen.
  replace (S (String.length (replaceItemText r EmptyString)))
    with (10 + (String.length (replaceItemText r EmptyString) - 9))%nat by lia.
  rewrite parseValue_replaceItem. reflexivity.
Qed.

Lemma replaceItemOfJson_replaceItemJson (r : ReplaceItem.t) :
  replaceItemOfJson (replaceItemJson r) = Some r.
Proof. destruct r as [v [[sl sc] [el ec]]]. reflexivity. Qed.

Lemma replaceData_range (item : Item.t) (version : string) :
  replaceData item version = ReplaceItem.mk version (Item.range item).
Proof. unfold replaceData. destruct (Item.range item) as [[sl sc] [el ec]]. reflexivity. Qed.

(** The payload decodes to the instruction it was made from. *)
Lemma decodePayload_encodedPayload (item : Item.t) (version : string) :
  decodePayload (encodedPayload item version)
  = Some (ReplaceItem.mk version (Item.range item)).
Proof.
  unfold decodePayload, encodedPayload.
  rewrite decode_encodeURI, parse_stringify_replaceItem,
    replaceItemOfJson_replaceItemJson, replaceData_range.
  reflexivity.
Qed.

(** C10: the bullet of a version embeds, as the query of its command link,
    a payload that decodes (URI-decode, then JSON-parse) to the
    instruction with that version as value and the four numbers of
    [item.range] as range; whatever [replaceVersion] writes on receiving
    it is that version over that range, and outside a replace in progress
    it writes exactly that, once. *)
Theorem C10_payload_roundtrip `{Externals} (item : Item.t) (current : string)
    (vuln : option (gmap string (list string))) (prefs : DecorationPreferences)
    (lang : Language.t) (i : nat) (version : string) :
  (exists opening closing,
     versionCommand item current vuln prefs lang i version
     = opening ++ "(command:" ++ REPLACE_VERSIONS ++ "?"
       ++ encodedPayload item version ++ ")" ++ closing)
  /\ decodePayload (encodedPayload item version)
     = Some (ReplaceItem.mk version (Item.range item))
  /\ (forall status r text,
        In (EditReplace r text)
          (snd (replaceVersion status (decodePayload (encodedPayload item version)))) ->
        r = Item.range item /\ text = version)
  /\ (forall status,
        inProgress status = false ->
        snd (replaceVersion status (decodePayload (encodedPayload item version)))
        = [EditReplace (Item.range item) version; WorkspaceSave]).
Proof.
  rewrite decodePayload_encodedPayload.
  split; [|split; [reflexivity|split]].
  - unfold versionCommand.
    exists ((if String.eqb version current then "**" else EmptyString)
            ++ "[" ++ version ++ "]").
    eexists. flatten_text. reflexivity.
  - intros status r text Hin.
    destruct (inProgress status) eqn:Hflag.
    + rewrite (replaceVersion_in_progress _ _ Hflag) in Hin.
      destruct Hin as [Hcall | []]; discriminate.
    + rewrite (replaceVersion_idle _ _ Hflag) in Hin.
      destruct Hin as [Hcall | [Hcall | []]]; [|discriminate].
      injection Hcall as <- <-. split; reflexivity.
  - intros status Hflag. rewrite (replaceVersion_idle _ _ Hflag). reflexivity.
Qed.

(** The bullet of [1.5.0] in the first scenario, clicked while no replace
    is in progress. *)
Lemma C10_payload_roundtrip_witness :
  inProgress (mkStatus false []) = false
  /\ decodePayload (encodedPayload (Scenario.declared "^1.0.0") "1.5.0")
     = Some (ReplaceItem.mk "1.5.0" (newRange 7 8 7 15))
  /\ snd (replaceVersion (mkStatus false [])
            (decodePayload (encodedPayload (Scenario.declared "^1.0.0") "1.5.0")))
     = [EditReplace (newRange 7 8 7 15) "1.5.0"; WorkspaceSave].
Proof.
  destruct (@C10_payload_roundtrip Scenario.tabulated (Scenario.declared "^1.0.0")
              "1.5.0" None Scenario.preferences Language.Rust 1 "1.5.0")
    as (_ & Hdecode & _ & Hwrite).
  split; [reflexivity|]. split; [exact Hdecode|].
  apply (Hwrite (mkStatus false [])). reflexivity.
Defined.

(** * Further properties *)

(** ** Strings, again *)

Lemma length_append (a b : string) :
  String.length (a ++ b) = (String.length a + String.length b)%nat.
Proof. induction a as [|x a IH]; simpl; [reflexivity | rewrite IH; reflexivity]. Qed.

Lemma substring_prefix (s t : string) :
  String.substring 0 (String.length s) (s ++ t) = s.
Proof. induction s as [|x s IH]; simpl; [destruct t; reflexivity | rewrite IH; reflexivity]. Qed.

(** [substr(1, length - 2)] drops the first and the last code unit. *)
Lemma substr_strip (a b : ascii) (s : string) :
  let v := String a (s ++ String b EmptyString) in
  Js.substr 1 (String.length v - 2) v = s.
Proof.
  cbv zeta. unfold Js.substr. cbn [String.length String.substring].
  rewrite length_append. cbn [String.length].
  replace (S (String.length s + 1) - 2)%nat with (String.length s) by lia.
  apply substring_prefix.
Qed.

Lemma substr_at_most_two (v : string) :
  String.length v <= 2 -> Js.substr 1 (String.length v - 2) v = EmptyString.
Proof.
  intros Hlen. unfold Js.substr.
  replace (String.length v - 2)%nat with 0%nat by lia.
  destruct v as [|a [|b t]]; reflexivity.
Qed.

Lemma join_app (l1 l2 : list string) :
  Js.join (l1 ++ l2)%list = Js.join l1 ++ Js.join l2.
Proof.
  induction l1 as [|s l1 IH]; simpl; [reflexivity|].
  rewrite IH, append_assoc. reflexivity.
Qed.

Lemma includes_append (c : ascii) (a b : string) :
  Js.includes c (a ++ b) = Js.includes c a || Js.includes c b.
Proof.
  induction a as [|x a IH]; simpl; [reflexivity|].
  rewrite IH, orb_assoc. reflexivity.
Qed.

Lemma includes_removeAll (c : ascii) (s : string) :
  Js.includes c (Js.removeAll c s) = false.
Proof.
  induction s as [|d s IH]; [reflexivity|]. cbn [Js.removeAll].
  destruct (Ascii.eqb d c) eqn:Hd; [exact IH|].
  cbn [Js.includes]. rewrite Ascii.eqb_sym, Hd, IH. reflexivity.
Qed.

Lemma every_append (p : ascii -> bool) (a b : string) :
  every p (a ++ b) = every p a && every p b.
Proof.
  induction a as [|x a IH]; simpl; [reflexivity|].
  rewrite IH, andb_assoc. reflexivity.
Qed.

Lemma every_excludes (p : ascii -> bool) (c : ascii) (s : string) :
  every p s = true -> p c = false -> Js.includes c s = false.
Proof.
  intros Hall Hc. induction s as [|d s IH]; [reflexivity|].
  cbn [every] in Hall. apply andb_true_iff in Hall as [Hd Hs].
  cbn [Js.includes]. rewrite (IH Hs), orb_false_r.
  destruct (Ascii.eqb_spec c d) as [->|]; [congruence | reflexivity].
Qed.

Lemma linkSafe_encodeUnit (c : ascii) : every linkSafe (Uri.encodeUnit c) = true.
Proof. destruct c as [[] [] [] [] [] [] [] []]; reflexivity. Qed.

Lemma linkSafe_encodeURI (s : string) : every linkSafe (Uri.encodeURI s) = true.
Proof.
  induction s as [|c s IH]; [reflexivity|].
  cbn [Uri.encodeURI]. rewrite every_append, linkSafe_encodeUnit, IH. reflexivity.
Qed.


Section BuilderEdges.

Context `{Externals}.

Implicit Types (item : Item.t) (versions : list string)
  (prefs : DecorationPreferences) (lang : Language.t)
  (vuln : option (gmap string (list string))) (error : option string).

Ltac enter_decoration Hcalls :=
  unfold decoration;
  destruct (checkVersion _ _) as [sat maxSat];
  rewrite Hcalls;
  cbn [mbind mret Completion_bind Completion_ret returned callsOf fst snd].

Lemma truthy_error error :
  Js.truthy error = true -> exists c e, error = Some (String c e).
Proof.
  destruct error as [[|c e]|]; simpl; try discriminate. eauto.
Qed.

(** X1: a [TypeError] escapes exactly when no error is supplied, the
    normalized value is the placeholder and [versions] is empty; no editor
    call has been issued by then. *)
Theorem decoration_throws_iff item versions prefs lang vuln error :
  (returned (decoration item versions prefs lang vuln error) = None
   <-> Js.truthy error = false
       /\ Js.loose_eq (normalize (Item.value item)) "?" = true
       /\ versions = [])
  /\ (returned (decoration item versions prefs lang vuln error) = None ->
      callsOf (decoration item versions prefs lang vuln error) = []).
Proof.
  destruct (Js.truthy error) eqn:Herr.
  - destruct (truthy_error _ Herr) as (c & e & ->).
    rewrite decoration_error. cbn [returned]. split.
    + split; [discriminate | intros (Hf & _); discriminate].
    + discriminate.
  - rewrite (decoration_no_error _ _ _ _ _ _ Herr).
    unfold decoration. destruct (checkVersion _ _) as [sat maxSat].
    unfold autoFill.
    destruct (Js.loose_eq _ _); [destruct versions as [|v0 rest]|];
      cbn [lookup list_lookup mbind mret Completion_bind Completion_ret emit
           returned callsOf]; split;
      try (split; [discriminate | intros (_ & Hq & Hv); congruence]);
      try discriminate; try reflexivity.
    split; [intros _; repeat split | reflexivity].
Qed.

(** X2: the editor is called only for the placeholder with no error
    supplied: then one edit of [item.range] and one save; in every other
    case no call at all. *)
Theorem decoration_calls item versions prefs lang vuln error :
  callsOf (decoration item versions prefs lang vuln error)
  = if negb (Js.truthy error) && Js.loose_eq (normalize (Item.value item)) "?"
    then match versions with
         | value :: _ =>
             [EditReplace (Item.range item)
                (Js.substr 1 (String.length value - 2) value);
              DocumentSave]
         | [] => []
         end
    else [].
Proof.
  destruct (Js.truthy error) eqn:Herr.
  - destruct (truthy_error _ Herr) as (c & e & ->).
    rewrite decoration_error. reflexivity.
  - rewrite (decoration_no_error _ _ _ _ _ _ Herr), callsOf_no_error.
    unfold autoFill. cbn [negb andb].
    destruct (Js.loose_eq _ _); [destruct versions|]; reflexivity.
Qed.


(** X3: the tag is [ERROR] exactly when an error is supplied or the
    normalized value is not a valid range, and [INCOMP] exactly when
    neither holds, [versions[0] !== maxSatisfying] and [satisfies] is
    false. *)
Theorem classification_error_iff item versions prefs lang vuln error :
  Js.truthy error = true \/ versions <> []
  \/ Js.loose_eq (normalize (Item.value item)) "?" = false ->
  let version := normalize (Item.value item) in
  let call := decoration item versions prefs lang vuln error in
  (classification call = Some ERROR
   <-> Js.truthy error = true \/ validRange version = false)
  /\ (classification call = Some INCOMP
      <-> Js.truthy error = false /\ validRange version = true
          /\ Js.strict_neq (Js.of_option (versions !! 0%nat))
               (snd (checkVersion version versions)) = true
          /\ fst (checkVersion version versions) = false).
Proof.
  intros Hret version call. subst call.
  destruct (Js.truthy error) eqn:Herr.
  - destruct (truthy_error _ Herr) as (c & e & ->).
    rewrite decoration_error. cbn [classification returned]. split.
    + split; [intros _; left; reflexivity | reflexivity].
    + split; [discriminate | intros (Hf & _); discriminate].
  - destruct Hret as [Hret | Hret]; [discriminate|].
    rewrite (decoration_no_error _ _ _ _ _ _ Herr).
    destruct (autoFill_returns item versions _ Hret) as [calls Hcalls].
    rewrite (classification_no_error _ _ _ _ _ _ Hcalls). cbv zeta. fold version.
    destruct (checkVersion version versions) as [sat maxSat]. cbn [fst snd].
    destruct (validRange version); cbn [negb];
      [destruct (Js.strict_neq _ _); [destruct sat|]|]; split; split;
      try discriminate; try reflexivity;
      try (intros [Hf | Hf]; discriminate);
      try (intros (_ & H1 & H2 & H3); discriminate);
      try (intros _; right; reflexivity);
      try (intros _; repeat split).
Qed.

(** X4: with an error supplied the result does not depend on [versions],
    the ecosystem, the vulnerability map or the key, value and range of
    the item. *)
Theorem decoration_error_bypass item item' versions versions' prefs lang lang'
    vuln vuln' (error : string) :
  error <> EmptyString ->
  Item.line item' = Item.line item ->
  Item.endOfLine item' = Item.endOfLine item ->
  Item.decoRange item' = Item.decoRange item ->
  decoration item' versions' prefs lang' vuln' (Some error)
  = decoration item versions prefs lang vuln (Some error).
Proof.
  intros Hne Hline Hend Hdeco. destruct error as [|c e]; [congruence|].
  rewrite !decoration_error. unfold placed. rewrite Hline, Hend, Hdeco.
  reflexivity.
Qed.

(** X5: the hover document is trusted exactly when no error is supplied. *)
Theorem hover_trusted_iff_no_error item versions prefs lang vuln error :
  Js.truthy error = true \/ versions <> []
  \/ Js.loose_eq (normalize (Item.value item)) "?" = false ->
  hoverTrusted (decoration item versions prefs lang vuln error)
  = Some (negb (Js.truthy error)).
Proof.
  intros Hret. destruct (Js.truthy error) eqn:Herr.
  - destruct (truthy_error _ Herr) as (c & e & ->).
    rewrite decoration_error. unfold hoverTrusted, formatError.
    cbn [returned hoverMessage]. rewrite formatError_fold. reflexivity.
  - destruct Hret as [Hret | Hret]; [discriminate|].
    rewrite (decoration_no_error _ _ _ _ _ _ Herr).
    destruct (autoFill_returns item versions _ Hret) as [calls Hcalls].
    unfold hoverTrusted. enter_decoration Hcalls.
    cbn [hoverMessage]. unfold appendVersions. rewrite appendVersionsFrom_value.
    reflexivity.
Qed.

(** X6: the decoration is anchored by the preferences alone: after the
    value on [item.decoRange], or before it on the whole line, with the
    inline text on the same side; error and classification play no part. *)
Theorem decoration_anchor item versions prefs lang vuln error :
  Js.truthy error = true \/ versions <> []
  \/ Js.loose_eq (normalize (Item.value item)) "?" = false ->
  anchor (decoration item versions prefs lang vuln error)
  = Some (match position prefs with
          | after => (Item.decoRange item, after)
          | before =>
              (mkRange (mkPosition (Item.line item) 0)
                 (mkPosition (Item.line item) (Item.endOfLine item)), before)
          end).
Proof.
  intros Hret. destruct (Js.truthy error) eqn:Herr.
  - destruct (truthy_error _ Herr) as (c & e & ->).
    rewrite decoration_error. unfold anchor, placed. cbn.
    destruct (position prefs); reflexivity.
  - destruct Hret as [Hret | Hret]; [discriminate|].
    rewrite (decoration_no_error _ _ _ _ _ _ Herr).
    destruct (autoFill_returns item versions _ Hret) as [calls Hcalls].
    unfold anchor. enter_decoration Hcalls. cbn [range renderOptions].
    destruct (vulnGet vuln _) as [[|a l]|]; cbn [attachment];
      destruct (position prefs); reflexivity.
Qed.


(** X7: with an empty version list (and no placeholder) the call still
    returns: the hover document has the heading and the quick links but no
    bullet, the inline text has [undefined] for [${version}], the tag
    compares [undefined] with [maxSatisfying], and the editor is not
    called. *)
Theorem decoration_no_versions item prefs lang vuln error :
  Js.truthy error = false ->
  Js.loose_eq (normalize (Item.value item)) "?" = false ->
  let version := normalize (Item.value item) in
  let call := decoration item [] prefs lang vuln error in
  exists type,
    classification call = Some type
    /\ type = (if negb (validRange version) then ERROR
               else match snd (checkVersion version []) with
                    | Js.undefined => COMP
                    | _ => if fst (checkVersion version []) then COMP else INCOMP
                    end)
    /\ hoverText call
       = Some (MarkdownString.value
                 (appendVulnerabilities (MarkdownString.new EmptyString) vuln version)
               ++ "#### Versions" ++ getLinks lang (Item.key item))
    /\ inlineText call
       = Some (Js.replace "${version}" "undefined" (getContentText prefs type)
               ++ match vulnGet vuln version with
                  | Some ((_ :: _) as advisories) =>
                      tab ++ Js.replace "${count}"
                               (Js.decimal (N.of_nat (length advisories)))
                               (vulnText prefs)
                  | _ => EmptyString
                  end)
    /\ callsOf call = [].
Proof.
  intros Herr Hq version call. subst call.
  rewrite (decoration_no_error _ _ _ _ _ _ Herr).
  assert (Hcalls : autoFill item [] version = Returns [] tt)
    by (unfold autoFill; subst version; rewrite Hq; reflexivity).
  destruct (inlineText_no_error item [] prefs lang vuln [] Hcalls)
    as (type & Htype & Htext).
  exists type. split; [exact Htype|]. split.
  - rewrite (classification_no_error _ _ _ _ _ _ Hcalls) in Htype.
    injection Htype as <-. cbv zeta. fold version.
    destruct (checkVersion version []) as [sat [| |m]]; reflexivity.
  - split; [|split; [exact Htext|]].
    + rewrite (hoverText_no_error _ _ _ _ _ _ Hcalls). cbn [imap Js.join].
      rewrite append_empty_r. reflexivity.
    + rewrite callsOf_no_error. fold version. rewrite Hcalls. reflexivity.
Qed.

(** X8: when the normalized declared value has advisories in the map, the
    hover document opens with the Vulnerabilities heading and one line per
    advisory, in the order of the map entry, each linking the advisory to
    its page on osv.dev; the Versions part follows. *)
Theorem hover_vulnerabilities_section item versions prefs lang vuln error
    advisories :
  Js.truthy error = false ->
  versions <> [] \/ Js.loose_eq (normalize (Item.value item)) "?" = false ->
  vulnGet vuln (normalize (Item.value item)) = Some advisories ->
  advisories <> [] ->
  exists versionsPart,
    hoverText (decoration item versions prefs lang vuln error)
    = Some ("#### Vulnerabilities (Current)" ++ nl
            ++ Js.join
                 ((fun id => " - [" ++ id ++ "](https://osv.dev/vulnerability/"
                             ++ id ++ ") " ++ nl) <$> advisories)
            ++ "#### Versions" ++ versionsPart).
Proof.
  intros Herr Hret Hget Hsome.
  rewrite (decoration_no_error _ _ _ _ _ _ Herr).
  destruct (autoFill_returns item versions _ Hret) as [calls Hcalls].
  rewrite (hoverText_no_error _ _ _ _ _ _ Hcalls).
  unfold appendVulnerabilities. rewrite Hget.
  destruct advisories as [|a l]; [congruence|].
  cbn [MarkdownString.appendMarkdown MarkdownString.new MarkdownString.value].
  eexists. rewrite !append_assoc. cbn [String.append]. reflexivity.
Qed.

(** X9: when the map is absent, has no entry for the normalized declared
    value, or has an empty one, the hover document starts with the
    Versions heading and the inline text is the state template with
    nothing appended. *)
Theorem no_advisory_no_mention item versions prefs lang vuln error :
  Js.truthy error = false ->
  versions <> [] \/ Js.loose_eq (normalize (Item.value item)) "?" = false ->
  vulnGet vuln (normalize (Item.value item)) = None
  \/ vulnGet vuln (normalize (Item.value item)) = Some [] ->
  exists type bullets,
    classification (decoration item versions prefs lang vuln error) = Some type
    /\ hoverText (decoration item versions prefs lang vuln error)
       = Some ("#### Versions" ++ getLinks lang (Item.key item) ++ bullets)
    /\ inlineText (decoration item versions prefs lang vuln error)
       = Some (Js.replace "${version}" (Js.to_string (versions !! 0%nat))
                 (getContentText prefs type)).
Proof.
  intros Herr Hret Hnone.
  rewrite (decoration_no_error _ _ _ _ _ _ Herr).
  destruct (autoFill_returns item versions _ Hret) as [calls Hcalls].
  destruct (inlineText_no_error item versions prefs lang vuln calls Hcalls)
    as (type & Htype & Htext).
  exists type.
  exists (Js.join
            (imap (fun i version =>
                     nl ++ " * "
                     ++ versionCommand item
                          (Js.nullish
                             (snd (checkVersion (normalize (Item.value item))
                                     versions))
                             EmptyString)
                          vuln prefs lang i version)
               versions)).
  split; [exact Htype|].
  rewrite (hoverText_no_error _ _ _ _ _ _ Hcalls), Htext.
  unfold appendVulnerabilities.
  destruct Hnone as [-> | ->];
    cbn [MarkdownString.new MarkdownString.value String.append];
    rewrite append_empty_r; split; reflexivity.
Qed.

(** X10: a first version without dollar sign replaces the first
    [${version}] of the state template literally, the rest of the template
    is kept as it is; a template without [${version}] is shown
    unchanged. *)
Theorem inline_version_literal item value rest prefs lang vuln error :
  Js.truthy error = false ->
  Js.includes "$" value = false ->
  vulnGet vuln (normalize (Item.value item)) = None ->
  exists type,
    classification (decoration item (value :: rest) prefs lang vuln error)
    = Some type
    /\ (forall before after,
          Js.search "${version}" (getContentText prefs type) = Some (before, after) ->
          inlineText (decoration item (value :: rest) prefs lang vuln error)
          = Some (before ++ value ++ after))
    /\ (Js.search "${version}" (getContentText prefs type) = None ->
        inlineText (decoration item (value :: rest) prefs lang vuln error)
        = Some (getContentText prefs type)).
Proof.
  intros Herr Hplain Hnone.
  rewrite (decoration_no_error _ _ _ _ _ _ Herr).
  destruct (autoFill_returns item (value :: rest) (normalize (Item.value item)))
    as [calls Hcalls]; [left; discriminate|].
  destruct (inlineText_no_error item (value :: rest) prefs lang vuln calls Hcalls)
    as (type & Htype & Htext).
  exists type. split; [exact Htype|].
  rewrite Htext, Hnone, append_empty_r. cbn [lookup list_lookup Js.to_string].
  split.
  - intros before after Hfound.
    rewrite (replace_plain _ _ _ _ _ Hplain Hfound). reflexivity.
  - intros Hfound. unfold Js.replace. rewrite Hfound. reflexivity.
Qed.

End BuilderEdges.

(** X11: the text the auto-fill writes is [versions[0]] without its first
    and its last code unit, whatever they are, and the empty text when
    [versions[0]] has at most two. *)
Theorem autofill_strips_both_ends `{Externals} (item : Item.t)
    (rest : list string) (prefs : DecorationPreferences) (lang : Language.t)
    (vuln : option (gmap string (list string))) :
  Item.value item = Some "?" ->
  (forall a b inner,
     callsOf (decoration item (String a (inner ++ String b EmptyString) :: rest)
                prefs lang vuln None)
     = [EditReplace (Item.range item) inner; DocumentSave])
  /\ (forall value,
        String.length value <= 2 ->
        callsOf (decoration item (value :: rest) prefs lang vuln None)
        = [EditReplace (Item.range item) EmptyString; DocumentSave]).
Proof.
  intros Hvalue. split.
  - intros a b inner. rewrite callsOf_no_error, Hvalue.
    change (normalize (Some "?")) with (Some "?").
    rewrite autoFill_placeholder. cbn [callsOf].
    rewrite (substr_strip a b inner). reflexivity.
  - intros value Hlen. rewrite callsOf_no_error, Hvalue.
    change (normalize (Some "?")) with (Some "?").
    rewrite autoFill_placeholder. cbn [callsOf].
    rewrite (substr_at_most_two value Hlen). reflexivity.
Qed.

(** X12: the quick links never contain a double quote, however the key is
    quoted, and two keys that differ in their quotes only get the same
    links. *)
Theorem getLinks_quotes (lang : Language.t) (key key' : string) :
  Js.includes dquote (getLinks lang key) = false
  /\ (Js.removeAll dquote key = Js.removeAll dquote key' ->
      getLinks lang key = getLinks lang key').
Proof.
  split.
  - unfold getLinks. destruct lang;
      rewrite ?includes_append, ?includes_removeAll; reflexivity.
  - intros Hsame. unfold getLinks. rewrite Hsame. reflexivity.
Qed.

(** ** Status and calls of the handlers *)






(** X16: [updateAll] issues no call at all, not even the save, exactly when
    a replace is in progress or the queue is empty; otherwise it issues
    one edit per queued instruction and then the save. *)
Theorem updateAll_silent_iff (status : Status) :
  (snd (updateAll status) = []
   <-> inProgress status = true \/ replaceItems status = [])
  /\ (snd (updateAll status) <> [] ->
      snd (updateAll status)
      = (applied <$> reverse (replaceItems status)) ++ [WorkspaceSave])%list.
Proof.
  destruct status as [flag items]. cbn [inProgress replaceItems].
  destruct flag.
  { split; [split; [intros _; left; reflexivity | reflexivity]|].
    intros Hne. exfalso. apply Hne. reflexivity. }
  destruct items as [|r items].
  { split; [split; [intros _; right; reflexivity | reflexivity]|].
    intros Hne. exfalso. apply Hne. reflexivity. }
  unfold updateAll. cbn [inProgress replaceItems negb andb].
  change (0 <? length (r :: items))%nat with true. cbv iota.
  rewrite replaceDownFrom_all. cbn [snd]. split.
  - split.
    + intros Hnil. apply app_eq_nil in Hnil as [_ Hnil]. discriminate.
    + intros [Hf | Hq]; discriminate.
  - reflexivity.
Qed.

(** ** The payload as link text *)

(** X17: the payload determines the instruction: two payloads are equal
    only for equal versions and equal ranges. *)
Theorem encodedPayload_injective (item item' : Item.t) (version version' : string) :
  encodedPayload item version = encodedPayload item' version' ->
  version = version' /\ Item.range item = Item.range item'.
Proof.
  intros Heq. apply (f_equal decodePayload) in Heq.
  rewrite !decodePayload_encodedPayload in Heq.
  injection Heq as Hv Hr. split; assumption.
Qed.

(** X18: the payload is made of the code units [encodeURI] leaves alone
    and of percent escapes: no white space, double quote, backslash, angle
    or square bracket, brace or control character reaches the link,
    whatever the version. *)
Theorem encodedPayload_link_safe (item : Item.t) (version : string) :
  every linkSafe (encodedPayload item version) = true
  /\ (forall c, linkSafe c = false ->
        Js.includes c (encodedPayload item version) = false)
  /\ linkSafe " " = false /\ linkSafe dquote = false
  /\ linkSafe backslash = false /\ linkSafe "[" = false
  /\ linkSafe "]" = false /\ linkSafe "<" = false /\ linkSafe ">" = false
  /\ linkSafe "{" = false /\ linkSafe "}" = false /\ linkSafe "010" = false.
Proof.
  split; [apply linkSafe_encodeURI|].
  split; [intros c Hc; apply (every_excludes linkSafe);
          [apply linkSafe_encodeURI | exact Hc]|].
  repeat split.
Qed.

(** ** Composition of the error document *)

Lemma split_nonempty (c : ascii) (s : string) : Js.split c s <> [].
Proof.
  induction s as [|d s IH]; cbn [Js.split]; [discriminate|].
  destruct (Ascii.eqb d c); [discriminate|].
  destruct (Js.split c s); [congruence | discriminate].
Qed.

(** Splitting distributes over a separator. *)
Lemma split_append (c : ascii) (a b : string) :
  Js.split c (a ++ String c b) = (Js.split c a ++ Js.split c b)%list.
Proof.
  induction a as [|d a IH]; cbn [String.append Js.split].
  - rewrite Ascii.eqb_refl. reflexivity.
  - destruct (Ascii.eqb d c); rewrite IH; [reflexivity|].
    pose proof (split_nonempty c a) as Hne.
    destruct (Js.split c a); [congruence | reflexivity].
Qed.

Section ErrorDocument.

Context `{Externals}.

Lemma errorBullets_append (a b : string) :
  errorBullets (a ++ nl ++ b) = errorBullets a ++ errorBullets b.
Proof.
  unfold errorBullets, nl. cbn [String.append].
  rewrite split_append, list.filter_app, fmap_app, join_app. reflexivity.
Qed.

(** X19: the error document of two texts joined by a newline is the heading
    followed by the bullets of the first and the bullets of the second:
    empty lines, and a newline at either end, leave no trace. *)
Theorem error_document_composes (item : Item.t) (versions : list string)
    (prefs : DecorationPreferences) (lang : Language.t)
    (vuln : option (gmap string (list string))) (a b : string) :
  hoverText (decoration item versions prefs lang vuln (Some (a ++ nl ++ b)))
  = Some ("#### Errors " ++ nl ++ errorBullets a ++ errorBullets b)
  /\ errorBullets EmptyString = EmptyString.
Proof.
  split; [|reflexivity].
  assert (exists c e, a ++ nl ++ b = String c e) as (c & e & Heq)
    by (destruct a; cbn; eauto).
  rewrite Heq, decoration_error. unfold hoverText. cbn [returned hoverMessage].
  rewrite formatError_value, <- Heq. fold (errorBullets (a ++ nl ++ b)).
  rewrite errorBullets_append. reflexivity.
Qed.

End ErrorDocument.

(** ** Instances *)

Lemma classification_error_iff_witness :
  let call :=
    @decoration Scenario.tabulated (Scenario.declared "^3.0.0") Scenario.versions
      Scenario.preferences Language.Rust None None in
  (classification call = Some ERROR
   <-> Js.truthy None = true
       \/ validRange (Externals := Scenario.tabulated) (Some "^3.0.0") = false)
  /\ (classification call = Some INCOMP
      <-> Js.truthy None = false
          /\ validRange (Externals := Scenario.tabulated) (Some "^3.0.0") = true
          /\ Js.strict_neq (Js.str "2.0.0") Js.null = true
          /\ false = false).
Proof.
  apply (@classification_error_iff Scenario.tabulated (Scenario.declared "^3.0.0")
           Scenario.versions Scenario.preferences Language.Rust None None).
  right; left; discriminate.
Defined.

Lemma decoration_error_bypass_witness :
  "not found" <> EmptyString
  /\ @decoration Scenario.tabulated (Scenario.declared "?") []
       Scenario.preferences Language.Other Scenario.advisories (Some "not found")
     = @decoration Scenario.tabulated (Scenario.declared "^1.0.0") Scenario.versions
         Scenario.preferences Language.Rust None (Some "not found").
Proof.
  split; [discriminate|].
  apply (@decoration_error_bypass Scenario.tabulated (Scenario.declared "^1.0.0")
           (Scenario.declared "?") Scenario.versions [] Scenario.preferences
           Language.Rust Language.Other None Scenario.advisories "not found");
    [discriminate | reflexivity ..].
Defined.

Lemma hover_trusted_iff_no_error_witness :
  hoverTrusted
    (@decoration Scenario.tabulated (Scenario.declared "^1.0.0") Scenario.versions
       Scenario.preferences Language.Rust None (Some "not found"))
  = Some false
  /\ hoverTrusted
       (@decoration Scenario.tabulated (Scenario.declared "^1.0.0")
          Scenario.versions Scenario.preferences Language.Rust None None)
     = Some true.
Proof.
  split.
  - apply (@hover_trusted_iff_no_error Scenario.tabulated
             (Scenario.declared "^1.0.0") Scenario.versions Scenario.preferences
             Language.Rust None (Some "not found")).
    left; reflexivity.
  - apply (@hover_trusted_iff_no_error Scenario.tabulated
             (Scenario.declared "^1.0.0") Scenario.versions Scenario.preferences
             Language.Rust None None).
    right; left; discriminate.
Defined.

Lemma decoration_anchor_witness :
  anchor
    (@decoration Scenario.tabulated (Scenario.declared "^1.0.0") Scenario.versions
       (mkPreferences before "a" "b" "c" "d") Language.Rust None (Some "not found"))
  = Some (newRange 7 0 7 15, before).
Proof.
  apply (@decoration_anchor Scenario.tabulated (Scenario.declared "^1.0.0")
           Scenario.versions (mkPreferences before "a" "b" "c" "d") Language.Rust
           None (Some "not found")).
  left; reflexivity.
Defined.

Lemma decoration_no_versions_witness :
  let call :=
    @decoration Scenario.tabulated (Scenario.declared "^3.0.0") []
      Scenario.preferences Language.Rust None None in
  classification call = Some INCOMP
  /\ hoverText call
     = Some ("#### Versions" ++ getLinks Language.Rust "serde")
  /\ inlineText call = Some "outdated undefined"
  /\ callsOf call = [].
Proof.
  destruct (@decoration_no_versions Scenario.tabulated
              (Scenario.declared "^3.0.0") Scenario.preferences Language.Rust
              None None eq_refl eq_refl)
    as (type & Htype & -> & Hhover & Hinline & Hcalls).
  split; [exact Htype|]. split; [exact Hhover|].
  split; [exact Hinline | exact Hcalls].
Defined.

Lemma hover_vulnerabilities_section_witness :
  exists versionsPart,
    hoverText
      (@decoration Scenario.tabulated (Scenario.declared "1.5.0") Scenario.versions
         Scenario.preferences Language.Rust Scenario.advisories None)
    = Some ("#### Vulnerabilities (Current)" ++ nl
            ++ " - [OSV-1](https://osv.dev/vulnerability/OSV-1) " ++ nl
            ++ " - [OSV-2](https://osv.dev/vulnerability/OSV-2) " ++ nl
            ++ "#### Versions" ++ versionsPart).
Proof.
  apply (@hover_vulnerabilities_section Scenario.tabulated
           (Scenario.declared "1.5.0") Scenario.versions Scenario.preferences
           Language.Rust Scenario.advisories None ["OSV-1"; "OSV-2"]);
    [reflexivity | left; discriminate | vm_compute; reflexivity | discriminate].
Defined.

Lemma no_advisory_no_mention_witness :
  exists type bullets,
    classification
      (@decoration Scenario.tabulated (Scenario.declared "^1.0.0")
         Scenario.versions Scenario.preferences Language.Other
         Scenario.advisories None)
    = Some type
    /\ hoverText
         (@decoration Scenario.tabulated (Scenario.declared "^1.0.0")
            Scenario.versions Scenario.preferences Language.Other
            Scenario.advisories None)
       = Some ("#### Versions" ++ bullets)
    /\ inlineText
         (@decoration Scenario.tabulated (Scenario.declared "^1.0.0")
            Scenario.versions Scenario.preferences Language.Other
            Scenario.advisories None)
       = Some (Js.replace "${version}" "2.0.0"
                 (getContentText Scenario.preferences type)).
Proof.
  apply (@no_advisory_no_mention Scenario.tabulated (Scenario.declared "^1.0.0")
           Scenario.versions Scenario.preferences Language.Other
           Scenario.advisories None);
    [reflexivity | left; discriminate | left; vm_compute; reflexivity].
Defined.

Lemma inline_version_literal_witness :
  Js.includes "$" "2.0.0" = false
  /\ inlineText
       (@decoration Scenario.tabulated (Scenario.declared "^1.0.0")
          ("2.0.0" :: ["1.5.0"; "1.0.0"])
          (mkPreferences after "${version} (${version})" "b" "c" "d")
          Language.Rust None None)
     = Some "2.0.0 (${version})".
Proof.
  split; [reflexivity|].
  destruct (@inline_version_literal Scenario.tabulated
              (Scenario.declared "^1.0.0") "2.0.0" ["1.5.0"; "1.0.0"]
              (mkPreferences after "${version} (${version})" "b" "c" "d")
              Language.Rust None None eq_refl eq_refl eq_refl)
    as (type & Htype & Hfound & _).
  vm_compute in Htype. injection Htype as <-.
  apply (Hfound EmptyString " (${version})"). reflexivity.
Defined.

Lemma autofill_strips_both_ends_witness :
  Item.value (Scenario.declared "?") = Some "?"
  /\ callsOf
       (@decoration Scenario.tabulated (Scenario.declared "?")
          (String dquote ("1.2.3" ++ String dquote EmptyString) :: [])
          Scenario.preferences Language.Rust None None)
     = [EditReplace (newRange 7 8 7 15) "1.2.3"; DocumentSave]
  /\ callsOf
       (@decoration Scenario.tabulated (Scenario.declared "?") ("v1" :: [])
          Scenario.preferences Language.Rust None None)
     = [EditReplace (newRange 7 8 7 15) EmptyString; DocumentSave].
Proof.
  destruct (@autofill_strips_both_ends Scenario.tabulated (Scenario.declared "?")
              [] Scenario.preferences Language.Rust None eq_refl)
    as [Hstrip Hshort].
  split; [reflexivity|]. split.
  - apply (Hstrip dquote dquote "1.2.3").
  - apply (Hshort "v1"). simpl. lia.
Defined.

Lemma encodedPayload_injective_witness :
  encodedPayload (Scenario.declared "^1.0.0") "1.5.0"
  = encodedPayload (Scenario.declared "?") "1.5.0"
  /\ "1.5.0" = "1.5.0"
  /\ Item.range (Scenario.declared "^1.0.0") = Item.range (Scenario.declared "?").
Proof.
  split; [reflexivity|].
  apply (encodedPayload_injective (Scenario.declared "^1.0.0")
           (Scenario.declared "?") "1.5.0" "1.5.0").
  reflexivity.
Defined.

Lemma decoration_throws_iff_witness :
  returned
    (@decoration Scenario.tabulated (Scenario.declared "?") []
       Scenario.preferences Language.Rust None None) = None
  /\ callsOf
       (@decoration Scenario.tabulated (Scenario.declared "?") []
          Scenario.preferences Language.Rust None None) = [].
Proof.
  destruct (@decoration_throws_iff Scenario.tabulated (Scenario.declared "?") []
              Scenario.preferences Language.Rust None None) as [Hiff Hcalls].
  assert (Hnone : returned
                    (@decoration Scenario.tabulated (Scenario.declared "?") []
                       Scenario.preferences Language.Rust None None) = None)
    by (apply Hiff; repeat split).
  split; [exact Hnone | exact (Hcalls Hnone)].
Defined.

Lemma getLinks_quotes_witness :
  getLinks Language.Rust (String dquote ("serde" ++ String dquote EmptyString))
  = getLinks Language.Rust "serde".
Proof.
  refine (proj2 (getLinks_quotes Language.Rust
                   (String dquote ("serde" ++ String dquote EmptyString))
                   "serde") _).
  reflexivity.
Defined.


Lemma updateAll_silent_iff_witness :
  snd (updateAll (mkStatus true [Scenario.A; Scenario.B])) = []
  /\ snd (updateAll (mkStatus false [Scenario.A; Scenario.B]))
     = [applied Scenario.B; applied Scenario.A; WorkspaceSave].
Proof.
  split.
  - refine (proj2 (proj1 (updateAll_silent_iff
                            (mkStatus true [Scenario.A; Scenario.B]))) _).
    left; reflexivity.
  - refine (proj2 (updateAll_silent_iff
                     (mkStatus false [Scenario.A; Scenario.B])) _).
    vm_compute. discriminate.
Defined.
